(** * conai.py: the voice assistant's turn loop

    A shallow embedding of [src/conai.py] (class [VoiceAI] and [main]).

    The program owns no algorithm: it sequences calls to external services
    (microphone, speech recognition, chat session, two speech synthesizers)
    and recovers from their failures with [try]/[except].  The embedding
    therefore keeps exactly that: a small monad of computations that read the
    interaction so far, may raise a Python exception, and emit the calls and
    printed lines they perform; the services answer through an oracle.

    Python [str] values are modelled by [string], one character per code
    point in U+0000..U+00FF; [str.lower] and [str.strip] are given on that
    range as CPython defines them. *)

From Stdlib Require Import String Ascii List Bool NArith ZArith Lia DecimalString.
Import ListNotations.
Local Open Scope string_scope.
Local Open Scope list_scope.

(** ** Python strings *)

Module PyStr.

Definition in_range (lo hi n : N) : bool := ((lo <=? n) && (n <=? hi))%N.

(** [ch.isspace()] on U+0000..U+00FF: TAB..CR, FS..US, SPACE, NEL, NBSP. *)
Definition isspace (c : ascii) : bool :=
  let n := N_of_ascii c in
  in_range 9 13 n || in_range 28 32 n || (n =? 133)%N || (n =? 160)%N.

(** [ch.isupper()] on U+0000..U+00FF: A..Z, and À..Þ without the
    multiplication sign. *)
Definition isupper (c : ascii) : bool :=
  let n := N_of_ascii c in
  in_range 65 90 n || (in_range 192 222 n && negb (n =? 215)%N).

Definition lower_char (c : ascii) : ascii :=
  if isupper c then ascii_of_N (N_of_ascii c + 32) else c.

(** [s.lower()] *)
Fixpoint lower (s : string) : string :=
  match s with
  | EmptyString => EmptyString
  | String c s' => String (lower_char c) (lower s')
  end.

(** [s.lstrip()] *)
Fixpoint lstrip (s : string) : string :=
  match s with
  | EmptyString => EmptyString
  | String c s' => if isspace c then lstrip s' else s
  end.

Definition is_empty (s : string) : bool :=
  match s with EmptyString => true | _ => false end.

(** [s.rstrip()] *)
Fixpoint rstrip (s : string) : string :=
  match s with
  | EmptyString => EmptyString
  | String c s' =>
      let r := rstrip s' in
      if isspace c && is_empty r then EmptyString else String c r
  end.

(** [s.strip()] *)
Definition strip (s : string) : string := rstrip (lstrip s).

(** [x in xs] for a list of strings. *)
Fixpoint mem (x : string) (xs : list string) : bool :=
  match xs with
  | [] => false
  | y :: ys => String.eqb x y || mem x ys
  end.

(** [c * n] for a one-character string. *)
Fixpoint replicate (n : nat) (c : ascii) : string :=
  match n with
  | O => EmptyString
  | S k => String c (replicate k c)
  end.

(** Every character is whitespace ([""] included). *)
Fixpoint all_space (s : string) : bool :=
  match s with
  | EmptyString => true
  | String c s' => isspace c && all_space s'
  end.

(** [c] is [p] or the capital of the lower-case ASCII letter [p]. *)
Definition same_letter (c p : ascii) : bool :=
  Ascii.eqb c p
  || (in_range 97 122 (N_of_ascii p)
      && (N_of_ascii c =? N_of_ascii p - 32)%N).

(** [s] is [w] written in some mix of upper and lower case. *)
Fixpoint case_variant (s w : string) : bool :=
  match s, w with
  | EmptyString, EmptyString => true
  | String c s', String p w' => same_letter c p && case_variant s' w'
  | _, _ => false
  end.

(** No character of [w] is an upper-case letter. *)
Fixpoint no_upper (w : string) : bool :=
  match w with
  | EmptyString => true
  | String p w' => negb (isupper p) && no_upper w'
  end.

(** [p in s]: [p] occurs in [s] as a substring. *)
Definition contains (p s : string) : Prop :=
  exists a b, s = (a ++ p ++ b)%string.

End PyStr.

(** ** Exceptions *)

(** The exception classes the program distinguishes.  [Exception_] stands for
    any instance of [Exception] other than the two [speech_recognition]
    classes; [KeyboardInterrupt] and [SystemExit] derive from [BaseException]
    only, so [except Exception] does not catch them. *)
Inductive exn : Type :=
| WaitTimeoutError (msg : string)
| UnknownValueError (msg : string)
| Exception_ (msg : string)
| KeyboardInterrupt
| SystemExit (code : Z).

Definition is_WaitTimeoutError (e : exn) : bool :=
  match e with WaitTimeoutError _ => true | _ => false end.

Definition is_UnknownValueError (e : exn) : bool :=
  match e with UnknownValueError _ => true | _ => false end.

Definition is_Exception (e : exn) : bool :=
  match e with
  | WaitTimeoutError _ | UnknownValueError _ | Exception_ _ => true
  | KeyboardInterrupt | SystemExit _ => false
  end.

Definition is_KeyboardInterrupt (e : exn) : bool :=
  match e with KeyboardInterrupt => true | _ => false end.

(** [str(e)], as the f-strings format it. *)
Definition str (e : exn) : string :=
  match e with
  | WaitTimeoutError m | UnknownValueError m | Exception_ m => m
  | KeyboardInterrupt => ""
  | SystemExit c => NilZero.string_of_int (Z.to_int c)
  end.

(** What a call or a computation ends with. *)
Inductive result (A : Type) : Type :=
| Ok (a : A)
| Raise (e : exn).
Arguments Ok {A} a.
Arguments Raise {A} e.

Definition returned {A} (r : result A) : bool :=
  match r with Ok _ => true | Raise _ => false end.

(** The call raised an instance of [Exception]. *)
Definition failed {A} (r : result A) : bool :=
  match r with Ok _ => false | Raise e => is_Exception e end.

(** ** The outside world *)

Definition audio : Type := list Byte.byte.

(** A value read with [os.getenv]: a [str] or [None]. *)
Definition pyval : Type := option string.

(** Calls that leave the program, indexed by the type of their answer.
    [AdjustForAmbientNoise] is always made with [duration=1.5]. *)
Inductive call : Type -> Type :=
| GenaiConfigure (api_key : pyval) : call unit
| ElevenLabs (api_key : pyval) : call unit
| SrRecognizer : call unit
| SrMicrophone : call unit
| Pyttsx3Init : call unit
| GenerativeModel (model_name system_instruction : string) : call unit
| StartChat : call unit
| MicrophoneEnter : call unit
| MicrophoneExit : call unit
| AdjustForAmbientNoise : call unit
| RecognizerListen (timeout phrase_time_limit : Z) : call audio
| RecognizeGoogle (a : audio) : call string
| SendMessage (user_input : string) : call string
| Convert (voice_id : pyval)
          (optimize_streaming_latency output_format text model_id : string)
  : call audio
| Play (a : audio) : call unit
| Say (text : string) : call unit
| RunAndWait : call unit.

(** What an observer of the process sees, oldest first: printed lines, and
    each external call with the way it ended. *)
Inductive event : Type :=
| Print (line : string)
| Called {R : Type} (c : call R) (r : result R).

Definition trace : Type := list event.

(** The services: the answer to a call may depend on everything that
    happened before it (the chat session keeps its history, the microphone
    hears something new each time). *)
Definition services : Type := forall R : Type, trace -> call R -> result R.

(** ** Computations *)

(** A computation reads the interaction so far and gives its result together
    with the events it adds. *)
Definition M (A : Type) : Type := trace -> result A * trace.

Definition ret {A} (a : A) : M A := fun _ => (Ok a, []).

Definition raise {A} (e : exn) : M A := fun _ => (Raise e, []).

Definition bind {A B} (m : M A) (f : A -> M B) : M B :=
  fun h =>
    match m h with
    | (Ok a, o1) => let (r, o2) := f a (h ++ o1) in (r, o1 ++ o2)
    | (Raise e, o1) => (Raise e, o1)
    end.

Declare Scope py_scope.
Delimit Scope py_scope with py.
Notation "x <- m ;; k" := (bind m (fun x => k))
  (at level 61, m at next level, right associativity) : py_scope.
Notation "m ;; k" := (bind m (fun _ => k))
  (at level 61, right associativity) : py_scope.
Local Open Scope py_scope.

Definition print (line : string) : M unit := fun _ => (Ok tt, [Print line]).

(** [sys.exit(code)] *)
Definition sys_exit {A} (code : Z) : M A := raise (SystemExit code).

(** One [except] clause: the class test and the handler body. *)
Definition except_clause (A : Type) : Type := (exn -> bool) * (exn -> M A).

Fixpoint dispatch {A} (clauses : list (except_clause A)) (e : exn)
  : option (M A) :=
  match clauses with
  | [] => None
  | (test, body) :: rest => if test e then Some (body e) else dispatch rest e
  end.

(** [try: m  except C1: ...  except C2 as e: ...]; the first clause whose
    class matches handles the exception, an unmatched one propagates. *)
Definition try_except {A} (m : M A) (clauses : list (except_clause A)) : M A :=
  fun h =>
    match m h with
    | (Ok a, o1) => (Ok a, o1)
    | (Raise e, o1) =>
        match dispatch clauses e with
        | Some k => let (r, o2) := k (h ++ o1) in (r, o1 ++ o2)
        | None => (Raise e, o1)
        end
    end.

(** [m] then [cleanup] whatever [m] ended with; an exception of [cleanup]
    replaces the outcome of [m]. *)
Definition finally {A} (m : M A) (cleanup : M unit) : M A :=
  fun h =>
    let (r, o1) := m h in
    match cleanup (h ++ o1) with
    | (Ok _, o2) => (r, o1 ++ o2)
    | (Raise e, o2) => (Raise e, o1 ++ o2)
    end.

(** Turn status: how one pass through the body of [while True] ends.
    [Idle] is the [continue] after an empty capture, [Exit] the [break],
    [Continue] falling off the end of the body. *)
Inductive status : Type := Continue | Exit | Idle.

(** [not v] for a [str] or [None]. *)
Definition not_ (v : pyval) : bool :=
  match v with
  | None => true
  | Some s => PyStr.is_empty s
  end.

Definition exit_phrases : list string := ["quit"; "exit"; "stop"; "goodbye"].

Definition farewell : string := "Goodbye! It was nice talking to you.".

Definition apology : string := "trouble responding.".

Definition newline : string := String (ascii_of_nat 10) EmptyString.

Definition system_prompt : string :=
  "You are a friendly and helpful voice assistant. "
  ++ "Respond naturally, concisely, and conversationally. "
  ++ "Do not act like a language model, act like a person.".

(** The fields of [self] that are data; the other fields are handles to the
    services. *)
Record VoiceAI : Type := { elevenlabs_voice_id : pyval }.

(** ** class VoiceAI and main *)

Section Agent.

Variable sv : services.

(** An external call: the services answer, the trace records it. *)
Definition invoke {R} (c : call R) : M R :=
  fun h => let r := sv R h c in (r, [Called c r]).

(** [with self.microphone as source: body] *)
Definition with_microphone {A} (body : M A) : M A :=
  invoke MicrophoneEnter ;;
  finally body (invoke MicrophoneExit).

(** [VoiceAI.__init__] *)
Definition VoiceAI_init (gemini_api_key elevenlabs_api_key voice_id : pyval)
  : M VoiceAI :=
  self <- try_except
            (invoke (GenaiConfigure gemini_api_key) ;;
             invoke (ElevenLabs elevenlabs_api_key) ;;
             ret {| elevenlabs_voice_id := voice_id |})
            [ (is_Exception,
               fun e => print ("Error configuring APIs: " ++ str e) ;;
                        sys_exit 1) ] ;;
  invoke SrRecognizer ;;
  invoke SrMicrophone ;;
  invoke Pyttsx3Init ;;
  invoke (GenerativeModel "gemini-2.5-pro" system_prompt) ;;
  invoke StartChat ;;
  print "Calibrating microphone, please wait..." ;;
  with_microphone (invoke AdjustForAmbientNoise) ;;
  print "Microphone calibrated. Ready to chat!" ;;
  ret self.

(** The [try] block of [listen]. *)
Definition listen_try (self : VoiceAI) : M (option string) :=
  a <- with_microphone
         (print (newline ++ "Listening...") ;;
          invoke (RecognizerListen 5 8)) ;;
  text <- invoke (RecognizeGoogle a) ;;
  print ("You said: " ++ text) ;;
  ret (Some text).

(** [VoiceAI.listen] *)
Definition listen (self : VoiceAI) : M (option string) :=
  try_except (listen_try self)
    [ (is_WaitTimeoutError, fun _ => ret None);
      (is_UnknownValueError,
       fun _ => print "Sorry, I could not understand that." ;; ret None);
      (is_Exception,
       fun e => print ("Listening error: " ++ str e) ;; ret None) ].

(** [VoiceAI.get_ai_response]; [SendMessage] answers with [response.text]. *)
Definition get_ai_response (self : VoiceAI) (user_input : string) : M string :=
  try_except
    (print "Thinking..." ;;
     response_text <- invoke (SendMessage user_input) ;;
     let ai_text := PyStr.strip response_text in
     print ("AI says: " ++ ai_text) ;;
     ret ai_text)
    [ (is_Exception,
       fun e => print ("Gemini API error: " ++ str e) ;; ret apology) ].

(** [VoiceAI.fallback_speak] *)
Definition fallback_speak (self : VoiceAI) (text : string) : M unit :=
  invoke (Say text) ;;
  invoke RunAndWait.

(** The [try] block of [speak]. *)
Definition speak_try (self : VoiceAI) (text : string) : M unit :=
  print "Speaking with ElevenLabs..." ;;
  a <- invoke (Convert (elevenlabs_voice_id self) "0" "mp3_44100_128" text
                       "eleven_multilingual_v2") ;;
  invoke (Play a).

(** [VoiceAI.speak] *)
Definition speak (self : VoiceAI) (text : string) : M unit :=
  try_except (speak_try self text)
    [ (is_Exception,
       fun e => print ("ElevenLabs error: " ++ str e) ;;
                print "-> Using fallback pyttsx3 TTS." ;;
                fallback_speak self text) ].

(** The body of [while True] in [VoiceAI.run], one turn.  [not user_text]
    holds for [None] and for the empty string. *)
Definition runTurn (self : VoiceAI) : M status :=
  user_text <- listen self ;;
  match user_text with
  | None => ret Idle
  | Some text =>
      if PyStr.is_empty text then ret Idle
      else if PyStr.mem (PyStr.strip (PyStr.lower text)) exit_phrases then
        print farewell ;;
        speak self farewell ;;
        print "Session ended." ;;
        ret Exit
      else
        ai_response <- get_ai_response self text ;;
        speak self ai_response ;;
        ret Continue
  end.

(** [while True: body]: [Exit] leaves the loop.  [fuel] bounds the number
    of turns the model follows; [None] says the loop was still going. *)
Fixpoint while_True (fuel : nat) (body : M status) : M (option unit) :=
  match fuel with
  | O => ret None
  | S n =>
      st <- body ;;
      match st with
      | Exit => ret (Some tt)
      | Continue | Idle => while_True n body
      end
  end.

(** [VoiceAI.run] *)
Definition run (fuel : nat) (self : VoiceAI) : M (option unit) :=
  print (newline ++ PyStr.replicate 50 "=") ;;
  print "Voice AI Agent Activated" ;;
  print "Say something to start chatting." ;;
  print "Say 'quit', 'exit', or 'goodbye' to stop." ;;
  while_True fuel (runTurn self).

(** [main]; [environ] is the process environment once [load_dotenv] has
    run. *)
Definition main (environ : string -> pyval) (fuel : nat) : M (option unit) :=
  let gemini_key := environ "GEMINI_API_KEY" in
  let elevenlabs_key := environ "ELEVENLABS_API_KEY" in
  let voice_id := environ "ELEVENLABS_VOICE_ID" in
  (if not_ gemini_key || not_ elevenlabs_key || not_ voice_id then
     print "Missing API keys or voice ID. Please check your .env file:" ;;
     print "GEMINI_API_KEY=..." ;;
     print "ELEVENLABS_API_KEY=..." ;;
     print "ELEVENLABS_VOICE_ID=..." ;;
     sys_exit 1
   else ret tt) ;;
  try_except
    (ai_agent <- VoiceAI_init gemini_key elevenlabs_key voice_id ;;
     run fuel ai_agent)
    [ (is_KeyboardInterrupt,
       fun _ => print (newline ++ "Session interrupted by user.") ;;
                ret (Some tt));
      (is_Exception,
       fun e => print ("Unexpected error: " ++ str e) ;; ret (Some tt)) ].

End Agent.

(** How the interpreter ends after [main()] at module level: a normal return
    is exit code 0, [SystemExit] its code, any other exception a traceback.
    [None]: the loop had not ended within the fuel. *)
Inductive process_end : Type :=
| ExitCode (code : Z)
| Traceback (e : exn).

Definition process (r : result (option unit)) : option process_end :=
  match r with
  | Ok (Some _) => Some (ExitCode 0)
  | Ok None => None
  | Raise (SystemExit code) => Some (ExitCode code)
  | Raise e => Some (Traceback e)
  end.

(** ** Reading a trace *)

Definition call_prompt {R} (c : call R) : list string :=
  match c with SendMessage p => [p] | _ => [] end.

Definition call_convert {R} (c : call R) : list string :=
  match c with Convert _ _ _ text _ => [text] | _ => [] end.

Definition call_say {R} (c : call R) : list string :=
  match c with Say text => [text] | _ => [] end.

Definition is_capture {R} (c : call R) : bool :=
  match c with
  | MicrophoneEnter | MicrophoneExit | RecognizerListen _ _
  | RecognizeGoogle _ => true
  | _ => false
  end.

Definition is_playback_end {R} (c : call R) : bool :=
  match c with Play _ | RunAndWait => true | _ => false end.

Definition is_primary {R} (c : call R) : bool :=
  match c with Convert _ _ _ _ _ | Play _ => true | _ => false end.

Definition is_fallback {R} (c : call R) : bool :=
  match c with Say _ | RunAndWait => true | _ => false end.

Definition on_call {X} (f : forall R, call R -> result R -> list X)
  (t : trace) : list X :=
  flat_map (fun ev => match ev with
                      | Print _ => []
                      | Called c r => f _ c r
                      end) t.

(** The prompts sent to the chat session, in order. *)
Definition prompts : trace -> list string :=
  on_call (fun _ c _ => call_prompt c).

(** The texts handed to the primary synthesizer, in order: one per call of
    [speak]. *)
Definition synthesis_requests : trace -> list string :=
  on_call (fun _ c _ => call_convert c).

(** The texts handed to the fallback synthesizer, in order. *)
Definition fallback_requests : trace -> list string :=
  on_call (fun _ c _ => call_say c).

(** The printed lines, in order. *)
Definition printed (t : trace) : list string :=
  flat_map (fun ev => match ev with Print l => [l] | Called _ _ => [] end) t.

(** Some call selected by [sel] ended the way [how] tests. *)
Definition some_call (sel : forall R, call R -> bool)
  (how : forall R, result R -> bool) (t : trace) : bool :=
  existsb (fun ev => match ev with
                     | Print _ => false
                     | Called c r => sel _ c && how _ r
                     end) t.

(** A synthesis path ran to its end: [play] or [runAndWait] returned. *)
Definition synthesis_completed : trace -> bool :=
  some_call (@is_playback_end) (@returned).

(** A call of the primary path raised an [Exception]. *)
Definition primary_failed : trace -> bool :=
  some_call (@is_primary) (@failed).

(** A call of the fallback path raised something. *)
Definition fallback_raised : trace -> bool :=
  some_call (@is_fallback) (fun _ r => negb (returned r)).

(** The chat call raised an [Exception]. *)
Definition generate_failed : trace -> bool :=
  some_call (fun _ c => match call_prompt c with [] => false | _ => true end)
            (@failed).

(** A call of the fallback path raised an [Exception]. *)
Definition fallback_failed : trace -> bool :=
  some_call (@is_fallback) (@failed).

(** The last event of a trace is a fallback call that raised [e], and no
    fallback call had failed before it. *)
Definition ends_in_fallback_raise (t : trace) (e : exn) : Prop :=
  exists pre R (c : call R),
    t = pre ++ [Called c (Raise e)] /\ is_fallback c = true
    /\ fallback_failed pre = false.

(** Only the microphone and the recognizer were called. *)
Definition capture_only (t : trace) : bool :=
  forallb (fun ev => match ev with
                     | Print _ => true
                     | Called c _ => is_capture c
                     end) t.

(** Only the chat session was called. *)
Definition chat_only (t : trace) : bool :=
  forallb (fun ev => match ev with
                     | Print _ => true
                     | Called c _ =>
                         match call_prompt c with [] => false | _ => true end
                     end) t.

(** No call of the chat session or of a synthesizer. *)
Definition no_dialogue_no_synthesis (t : trace) : Prop :=
  prompts t = [] /\ synthesis_requests t = [] /\ fallback_requests t = []
  /\ synthesis_completed t = false /\ primary_failed t = false
  /\ fallback_raised t = false /\ generate_failed t = false
  /\ fallback_failed t = false.

(** The names [main] reads from the environment. *)
Definition required_keys : list string :=
  ["GEMINI_API_KEY"; "ELEVENLABS_API_KEY"; "ELEVENLABS_VOICE_ID"].

(** ** More readings of a trace *)

Definition is_config {R} (c : call R) : bool :=
  match c with GenaiConfigure _ | ElevenLabs _ => true | _ => false end.

(** The startup calls of [__init__] that come after the [try] block and
    before the calibration. *)
Definition is_startup {R} (c : call R) : bool :=
  match c with
  | SrRecognizer | SrMicrophone | Pyttsx3Init | GenerativeModel _ _
  | StartChat => true
  | _ => false
  end.

Definition is_chat {R} (c : call R) : bool :=
  match c with SendMessage _ => true | _ => false end.

Definition is_recognizer_listen {R} (c : call R) : bool :=
  match c with RecognizerListen _ _ => true | _ => false end.

(** The calls a turn can make after the capture. *)
Definition is_reply_call {R} (c : call R) : bool :=
  is_chat c || is_primary c || is_fallback c.

(** The calls a turn can make. *)
Definition is_turn_call {R} (c : call R) : bool :=
  is_capture c || is_reply_call c.

Definition any_result {R} (r : result R) : bool := true.

(** The call raised [KeyboardInterrupt]. *)
Definition interrupt {R} (r : result R) : bool :=
  match r with Raise KeyboardInterrupt => true | _ => false end.

(** Every call of the trace is selected by [sel]. *)
Definition calls_only (sel : forall R, call R -> bool) (t : trace) : bool :=
  forallb (fun ev => match ev with
                     | Print _ => true
                     | Called c _ => sel _ c
                     end) t.

(** A configuration call of [__init__] raised an [Exception]. *)
Definition config_failed : trace -> bool :=
  some_call (@is_config) (@failed).

(** A startup call of [__init__] raised an [Exception]. *)
Definition startup_failed : trace -> bool :=
  some_call (@is_startup) (@failed).

(** A chat or synthesis call raised [KeyboardInterrupt]. *)
Definition reply_interrupted : trace -> bool :=
  some_call (@is_reply_call) (@interrupt).

(** The recognizer was asked to listen: a turn began. *)
Definition listened : trace -> bool :=
  some_call (@is_recognizer_listen) (@any_result).

(** The last event of a trace is a call selected by [sel] that raised [e]. *)
Definition ends_in_raise (sel : forall R, call R -> bool) (t : trace)
  (e : exn) : Prop :=
  exists pre R (c : call R),
    t = pre ++ [Called c (Raise e)] /\ sel R c = true.

(** The last line printed, [""] when there is none. *)
Definition last_printed (t : trace) : string := last (printed t) "".

(** The parameters of a [convert] request, its text apart. *)
Definition call_convert_params {R} (c : call R)
  : list (pyval * string * string * string) :=
  match c with
  | Convert v latency format _ model => [(v, latency, format, model)]
  | _ => []
  end.

Definition convert_params : trace -> list (pyval * string * string * string) :=
  on_call (fun _ c _ => call_convert_params c).

(** One mark for every [__enter__] of the microphone that returned. *)
Definition mic_opened : trace -> list unit :=
  on_call (fun _ c r =>
             match c with
             | MicrophoneEnter => if returned r then [tt] else []
             | _ => []
             end).

(** One mark for every call of the microphone's [__exit__]. *)
Definition mic_closed : trace -> list unit :=
  on_call (fun _ c _ => match c with MicrophoneExit => [tt] | _ => [] end).

(** The transcripts [recognize_google] returned, in order. *)
Definition heard : trace -> list string :=
  on_call (fun _ c r =>
             match c in call R return result R -> list string with
             | RecognizeGoogle _ =>
                 fun r => match r with Ok text => [text] | Raise _ => [] end
             | _ => fun _ => []
             end r).

(** The test [run] makes before it sends an utterance to the chat session:
    it is not empty and, lower-cased and stripped, is no exit phrase. *)
Definition forwardable (text : string) : bool :=
  negb (PyStr.is_empty text)
  && negb (PyStr.mem (PyStr.strip (PyStr.lower text)) exit_phrases).

(** The parameters every [convert] request of [self] carries. *)
Definition speak_params (self : VoiceAI) : pyval * string * string * string :=
  (elevenlabs_voice_id self, "0", "mp3_44100_128", "eleven_multilingual_v2").

(** The four lines [main] prints when a required value is missing. *)
Definition missing_lines : trace :=
  [ Print "Missing API keys or voice ID. Please check your .env file:";
    Print "GEMINI_API_KEY=...";
    Print "ELEVENLABS_API_KEY=...";
    Print "ELEVENLABS_VOICE_ID=..." ].

(** The four lines [run] prints before the loop. *)
Definition banner : trace :=
  [ Print (newline ++ PyStr.replicate 50 "=");
    Print "Voice AI Agent Activated";
    Print "Say something to start chatting.";
    Print "Say 'quit', 'exit', or 'goodbye' to stop." ].

(** What the two [except] clauses of [main] make of an exception [e] raised
    after the events [o]. *)
Definition main_except (e : exn) (o : trace) : result (option unit) * trace :=
  if is_KeyboardInterrupt e then
    (Ok (Some tt), o ++ [Print (newline ++ "Session interrupted by user.")])
  else if is_Exception e then
    (Ok (Some tt), o ++ [Print ("Unexpected error: " ++ str e)])
  else (Raise e, o).

(** What [listen] prints for an exception [e] of its [try] block. *)
Definition listen_diagnostic (e : exn) : list string :=
  match e with
  | WaitTimeoutError _ => []
  | UnknownValueError _ => ["Sorry, I could not understand that."]
  | Exception_ msg => [("Listening error: " ++ msg)%string]
  | KeyboardInterrupt | SystemExit _ => []
  end.

(** ** Concrete worlds, for evaluation *)

(** Services that answer the same way whatever happened before: the
    recognizer hears [heard], the chat session answers [reply], the primary
    synthesizer's [convert] ends with [primary] and the fallback's [say]
    with [fallback]; every other call returns. *)
Definition steady_world (heard reply : result string)
  (primary fallback : result unit) : services :=
  fun R _ c =>
    match c in call R return result R with
    | RecognizerListen _ _ => Ok []
    | RecognizeGoogle _ => heard
    | SendMessage _ => reply
    | Convert _ _ _ _ _ =>
        match primary with Ok _ => Ok [] | Raise e => Raise e end
    | Say _ => fallback
    | _ => Ok tt
    end.

Definition agent : VoiceAI := {| elevenlabs_voice_id := Some "voice-1" |}.

(** Both synthesizers work. *)
Definition working (heard reply : result string) : services :=
  steady_world heard reply (Ok tt) (Ok tt).

(** The primary synthesizer is down, the fallback works. *)
Definition primary_down (heard reply : result string) : services :=
  steady_world heard reply (Raise (Exception_ "api down")) (Ok tt).

(** Both synthesizers are down. *)
Definition no_audio (heard reply : result string) : services :=
  steady_world heard reply (Raise (Exception_ "api down"))
    (Raise (Exception_ "no audio device")).

(** The recognizer understands nothing, whatever happened before. *)
Definition deaf_world : services :=
  steady_world (Raise (UnknownValueError "")) (Ok "") (Ok tt) (Ok tt).

(** [genai.configure] rejects the key. *)
Definition config_down : services :=
  fun R _ c =>
    match c in call R return result R with
    | GenaiConfigure _ => Raise (Exception_ "bad key")
    | RecognizerListen _ _ => Ok []
    | RecognizeGoogle _ => Ok "quit"
    | SendMessage _ => Ok ""
    | Convert _ _ _ _ _ => Ok []
    | _ => Ok tt
    end.

(** There is no microphone: [sr.Microphone()] raises. *)
Definition no_microphone : services :=
  fun R _ c =>
    match c in call R return result R with
    | SrMicrophone => Raise (Exception_ "no input device")
    | RecognizerListen _ _ => Ok []
    | RecognizeGoogle _ => Ok "quit"
    | SendMessage _ => Ok ""
    | Convert _ _ _ _ _ => Ok []
    | _ => Ok tt
    end.

(** The user interrupts the program while the chat session is thinking. *)
Definition interrupted_chat : services :=
  fun R _ c =>
    match c in call R return result R with
    | RecognizerListen _ _ => Ok []
    | RecognizeGoogle _ => Ok "Hello there"
    | SendMessage _ => Raise KeyboardInterrupt
    | Convert _ _ _ _ _ => Ok []
    | _ => Ok tt
    end.

(** An environment with the three values set. *)
Definition full_environ : string -> pyval := fun _ => Some "set".

(** An environment without the voice identifier. *)
Definition no_voice_environ : string -> pyval :=
  fun k => if String.eqb k "ELEVENLABS_VOICE_ID" then None else Some "set".

(** An environment without the Gemini key. *)
Definition no_gemini_environ : string -> pyval :=
  fun k => if String.eqb k "GEMINI_API_KEY" then None else Some "set".

(** ** Facts about [lower] and [strip] *)

Module PyStrFacts.
Import PyStr.
Local Open Scope string_scope.

Example lower_ex : PyStr.lower "  GoodBye " = "  goodbye ".
Proof. reflexivity. Qed.

Example strip_ex : PyStr.strip "  please exit now  " = "please exit now".
Proof. reflexivity. Qed.

Lemma lower_app (a b : string) : lower (a ++ b) = lower a ++ lower b.
Proof.
  induction a as [|c a IH]; simpl; [reflexivity | now rewrite IH].
Qed.

Lemma space_not_upper (c : ascii) : isspace c = true -> isupper c = false.
Proof.
  destruct c as [[] [] [] [] [] [] [] []]; vm_compute; congruence.
Qed.

Lemma lower_all_space (s : string) : all_space s = true -> lower s = s.
Proof.
  induction s as [|c s IH]; simpl; [reflexivity|].
  intros H. apply andb_true_iff in H as [Hc Hs].
  unfold lower_char. rewrite (space_not_upper c Hc). now rewrite IH.
Qed.

Lemma lower_same_letter (c p : ascii) :
  same_letter c p = true -> isupper p = false -> lower_char c = p.
Proof.
  unfold same_letter, lower_char. intros H Hp.
  apply orb_true_iff in H as [H | H].
  - apply Ascii.eqb_eq in H. subst c. now rewrite Hp.
  - apply andb_true_iff in H as [Hr Hc].
    apply N.eqb_eq in Hc.
    unfold in_range in Hr. apply andb_true_iff in Hr as [Hlo Hhi].
    apply N.leb_le in Hlo, Hhi.
    assert (Hup : isupper c = true).
    { unfold isupper, in_range. rewrite Hc.
      apply orb_true_iff. left. apply andb_true_iff.
      split; apply N.leb_le; lia. }
    rewrite Hup, Hc.
    replace (N_of_ascii p - 32 + 32)%N with (N_of_ascii p) by lia.
    apply ascii_N_embedding.
Qed.

Lemma lower_case_variant (s w : string) :
  case_variant s w = true -> no_upper w = true -> lower s = w.
Proof.
  revert w. induction s as [|c s IH]; intros [|p w]; simpl;
    try discriminate; [reflexivity|].
  intros H Hw.
  apply andb_true_iff in H as [Hc Hs].
  apply andb_true_iff in Hw as [Hp Hw].
  apply negb_true_iff in Hp.
  now rewrite (lower_same_letter c p Hc Hp), (IH w Hs Hw).
Qed.

Lemma lstrip_app_space (pre s : string) :
  all_space pre = true -> lstrip (pre ++ s) = lstrip s.
Proof.
  induction pre as [|c pre IH]; simpl; [reflexivity|].
  intros H. apply andb_true_iff in H as [Hc Hs].
  rewrite Hc. now apply IH.
Qed.

Lemma lstrip_nonspace (c : ascii) (s : string) :
  isspace c = false -> lstrip (String c s) = String c s.
Proof. intros H. simpl. now rewrite H. Qed.

Lemma rstrip_all_space (s : string) :
  all_space s = true -> rstrip s = EmptyString.
Proof.
  induction s as [|c s IH]; simpl; [reflexivity|].
  intros H. apply andb_true_iff in H as [Hc Hs].
  now rewrite (IH Hs), Hc.
Qed.

Lemma rstrip_app_space (s post : string) :
  all_space post = true -> rstrip (s ++ post) = rstrip s.
Proof.
  intros H. induction s as [|c s IH]; simpl.
  - now apply rstrip_all_space.
  - now rewrite IH.
Qed.

Lemma strip_all_space (s : string) :
  all_space s = true -> strip s = EmptyString.
Proof.
  unfold strip. induction s as [|c s IH]; simpl; [reflexivity|].
  intros H. apply andb_true_iff in H as [Hc Hs].
  rewrite Hc. now apply IH.
Qed.

Lemma strip_all_space_lower (s : string) :
  all_space s = true -> strip (lower s) = EmptyString.
Proof.
  intros H. rewrite (lower_all_space s H). now apply strip_all_space.
Qed.

Lemma mem_In (x : string) (xs : list string) : mem x xs = true <-> In x xs.
Proof.
  induction xs as [|y ys IH]; simpl.
  - split; [discriminate | tauto].
  - rewrite orb_true_iff, IH, String.eqb_eq. split; intros [H | H]; auto.
Qed.

(** The normal form of an exit phrase wrapped in whitespace and written in
    any mix of cases is the phrase. *)
Lemma normalize_exit_phrase (pre body post p : string) :
  In p exit_phrases ->
  all_space pre = true -> all_space post = true ->
  case_variant body p = true ->
  strip (lower (pre ++ body ++ post)) = p.
Proof.
  intros Hp Hpre Hpost Hbody.
  rewrite !lower_app, (lower_all_space pre Hpre), (lower_all_space post Hpost).
  assert (Hlow : lower body = p).
  { apply lower_case_variant; [assumption|].
    simpl in Hp. decompose [or] Hp; subst; try reflexivity; contradiction. }
  rewrite Hlow. clear Hlow Hbody body. unfold strip.
  rewrite (lstrip_app_space pre _ Hpre).
  assert (Hl : lstrip (p ++ post) = p ++ post).
  { simpl in Hp. decompose [or] Hp; try contradiction; subst p;
      apply lstrip_nonspace; reflexivity. }
  rewrite Hl, (rstrip_app_space p post Hpost).
  simpl in Hp. decompose [or] Hp; try contradiction; subst p; reflexivity.
Qed.

End PyStrFacts.

(** ** Facts about traces *)

Section TraceFacts.

Lemma on_call_app {X} (f : forall R, call R -> result R -> list X)
  (a b : trace) : on_call f (a ++ b) = on_call f a ++ on_call f b.
Proof. unfold on_call. apply flat_map_app. Qed.

Lemma prompts_app (a b : trace) : prompts (a ++ b) = prompts a ++ prompts b.
Proof. apply on_call_app. Qed.

Lemma synthesis_requests_app (a b : trace) :
  synthesis_requests (a ++ b) = synthesis_requests a ++ synthesis_requests b.
Proof. apply on_call_app. Qed.

Lemma fallback_requests_app (a b : trace) :
  fallback_requests (a ++ b) = fallback_requests a ++ fallback_requests b.
Proof. apply on_call_app. Qed.

Lemma some_call_app sel how (a b : trace) :
  some_call sel how (a ++ b) = some_call sel how a || some_call sel how b.
Proof. unfold some_call. apply existsb_app. Qed.

Lemma prompts_print (l : string) (t : trace) :
  prompts (Print l :: t) = prompts t.
Proof. reflexivity. Qed.

Lemma synthesis_requests_print (l : string) (t : trace) :
  synthesis_requests (Print l :: t) = synthesis_requests t.
Proof. reflexivity. Qed.

Lemma fallback_requests_print (l : string) (t : trace) :
  fallback_requests (Print l :: t) = fallback_requests t.
Proof. reflexivity. Qed.

Lemma synthesis_completed_app (a b : trace) :
  synthesis_completed (a ++ b) = synthesis_completed a || synthesis_completed b.
Proof. apply some_call_app. Qed.

Lemma synthesis_completed_print (l : string) (t : trace) :
  synthesis_completed (Print l :: t) = synthesis_completed t.
Proof. reflexivity. Qed.

Lemma primary_failed_app (a b : trace) :
  primary_failed (a ++ b) = primary_failed a || primary_failed b.
Proof. apply some_call_app. Qed.

Lemma primary_failed_print (l : string) (t : trace) :
  primary_failed (Print l :: t) = primary_failed t.
Proof. reflexivity. Qed.

Lemma fallback_raised_app (a b : trace) :
  fallback_raised (a ++ b) = fallback_raised a || fallback_raised b.
Proof. apply some_call_app. Qed.

Lemma fallback_raised_print (l : string) (t : trace) :
  fallback_raised (Print l :: t) = fallback_raised t.
Proof. reflexivity. Qed.

Lemma generate_failed_app (a b : trace) :
  generate_failed (a ++ b) = generate_failed a || generate_failed b.
Proof. apply some_call_app. Qed.

Lemma generate_failed_print (l : string) (t : trace) :
  generate_failed (Print l :: t) = generate_failed t.
Proof. reflexivity. Qed.

Lemma fallback_failed_app (a b : trace) :
  fallback_failed (a ++ b) = fallback_failed a || fallback_failed b.
Proof. apply some_call_app. Qed.

Lemma fallback_failed_print (l : string) (t : trace) :
  fallback_failed (Print l :: t) = fallback_failed t.
Proof. reflexivity. Qed.

Lemma capture_only_quiet (t : trace) :
  capture_only t = true -> no_dialogue_no_synthesis t.
Proof.
  unfold no_dialogue_no_synthesis.
  induction t as [|ev t IH]; [repeat split|].
  intros H. apply andb_true_iff in H as [Hev Ht].
  specialize (IH Ht).
  destruct IH as (I1 & I2 & I3 & I4 & I5 & I6 & I7 & I8).
  change (ev :: t) with ([ev] ++ t).
  rewrite prompts_app, synthesis_requests_app, fallback_requests_app,
    synthesis_completed_app, primary_failed_app, fallback_raised_app,
    generate_failed_app, fallback_failed_app.
  rewrite I1, I2, I3, I4, I5, I6, I7, I8.
  destruct ev as [l | R c r]; [repeat split|].
  destruct c; try discriminate Hev; repeat split.
Qed.

Lemma chat_only_no_synthesis (t : trace) :
  chat_only t = true ->
  synthesis_requests t = [] /\ fallback_requests t = []
  /\ synthesis_completed t = false /\ primary_failed t = false
  /\ fallback_raised t = false /\ fallback_failed t = false.
Proof.
  induction t as [|ev t IH]; [repeat split|].
  intros H. apply andb_true_iff in H as [Hev Ht].
  specialize (IH Ht). destruct IH as (I2 & I3 & I4 & I5 & I6 & I7).
  change (ev :: t) with ([ev] ++ t).
  rewrite synthesis_requests_app, fallback_requests_app,
    synthesis_completed_app, primary_failed_app, fallback_raised_app,
    fallback_failed_app.
  rewrite I2, I3, I4, I5, I6, I7.
  destruct ev as [l | R c r]; [repeat split|].
  destruct c; try discriminate Hev; repeat split.
Qed.

End TraceFacts.

(** ** The methods, one by one *)

Ltac open_py :=
  cbv [VoiceAI_init listen listen_try get_ai_response speak speak_try
       fallback_speak with_microphone finally try_except bind ret raise print invoke
       sys_exit dispatch fst snd app
       is_Exception is_WaitTimeoutError is_UnknownValueError
       is_KeyboardInterrupt].

(** Split on the way the next external call ends. *)
Ltac case_call sv :=
  match goal with
  | |- context [sv ?R ?h ?c] =>
      destruct (sv R h c) as [?|[?|?|?| |?]]; open_py
  end.

Ltac close_case :=
  repeat split; intros;
  repeat match goal with
         | H : Raise _ = Raise _ |- _ => injection H as H; subst
         | H : Ok _ = Ok _ |- _ => injection H as H; subst
         | u : unit |- _ => destruct u
         end;
  try discriminate; try reflexivity; auto.

Section Methods.

Variable sv : services.
Variable self : VoiceAI.

(** [listen] calls nothing but the microphone and the recognizer, lets no
    [Exception] through, and answers [None] when its [try] block raised
    one. *)
Lemma listen_spec (h : trace) :
  capture_only (snd (listen sv self h)) = true
  /\ (forall e, fst (listen sv self h) = Raise e -> is_Exception e = false)
  /\ (forall e, fst (listen_try sv self h) = Raise e ->
                is_Exception e = true ->
                fst (listen sv self h) = Ok None).
Proof.
  open_py. repeat case_call sv; close_case.
Qed.

(** [get_ai_response] sends exactly the prompt it was given, lets no
    [Exception] through, and answers the apology when the chat call
    failed. *)
Lemma get_ai_response_spec (user_input : string) (h : trace) :
  let r := fst (get_ai_response sv self user_input h) in
  let o := snd (get_ai_response sv self user_input h) in
  chat_only o = true
  /\ prompts o = [user_input]
  /\ (forall e, r = Raise e -> is_Exception e = false)
  /\ (generate_failed o = true -> r = Ok apology)
  /\ (generate_failed o = false ->
      forall reply, r = Ok reply ->
      exists answer, reply = PyStr.strip answer).
Proof.
  open_py. repeat case_call sv; close_case; eauto.
Qed.

(** [speak]: one request to the primary synthesizer; it returns exactly
    when a playback ran to its end; after a primary failure the fallback
    gets the same text; an [Exception] leaves it only from the fallback. *)
Lemma speak_spec (text : string) (h : trace) :
  let r := fst (speak sv self text h) in
  let o := snd (speak sv self text h) in
  prompts o = [] /\ generate_failed o = false
  /\ synthesis_requests o = [text]
  /\ (fallback_requests o = [] \/ fallback_requests o = [text])
  /\ synthesis_completed o = returned r
  /\ (primary_failed o = true -> fallback_raised o = false ->
      r = Ok tt /\ fallback_requests o = [text])
  /\ (forall e, r = Raise e -> is_Exception e = true ->
      ends_in_fallback_raise o e)
  /\ (returned r = true -> fallback_failed o = false)
  /\ (fallback_failed o = true ->
      exists e, r = Raise e /\ is_Exception e = true).
Proof.
  unfold ends_in_fallback_raise.
  open_py. repeat case_call sv; close_case;
    try (match goal with
         | |- exists _, _ =>
             first
               [ solve [eexists; split; reflexivity]
               | eexists [_; _; _; _], _, _;
                 split; [reflexivity | split; reflexivity]
               | eexists [_; _; _; _; _], _, _;
                 split; [reflexivity | split; reflexivity]
               | eexists [_; _; _; _; _; _], _, _;
                 split; [reflexivity | split; reflexivity] ]
         end).
Qed.

End Methods.

Create Rewrite HintDb trace.

#[global] Hint Rewrite
  prompts_app synthesis_requests_app fallback_requests_app
  synthesis_completed_app primary_failed_app fallback_raised_app
  generate_failed_app fallback_failed_app
  prompts_print synthesis_requests_print fallback_requests_print
  synthesis_completed_print primary_failed_print fallback_raised_print
  generate_failed_print fallback_failed_print
  app_nil_r orb_false_r orb_false_l : trace.

(** ** One turn *)

Section Turn.

Variable sv : services.
Variable self : VoiceAI.

(** [runTurn], with the three method calls it is made of laid out. *)
Lemma runTurn_eq (h : trace) :
  runTurn sv self h =
  match listen sv self h with
  | (Raise e, o) => (Raise e, o)
  | (Ok None, o) => (Ok Idle, o)
  | (Ok (Some text), o) =>
      if PyStr.is_empty text then (Ok Idle, o)
      else if PyStr.mem (PyStr.strip (PyStr.lower text)) exit_phrases then
        match speak sv self farewell ((h ++ o) ++ [Print farewell]) with
        | (Ok _, os) =>
            (Ok Exit, o ++ Print farewell :: os ++ [Print "Session ended."])
        | (Raise e, os) => (Raise e, o ++ Print farewell :: os)
        end
      else
        match get_ai_response sv self text (h ++ o) with
        | (Raise e, og) => (Raise e, o ++ og)
        | (Ok reply, og) =>
            match speak sv self reply ((h ++ o) ++ og) with
            | (Ok _, os) => (Ok Continue, o ++ og ++ os)
            | (Raise e, os) => (Raise e, o ++ og ++ os)
            end
        end
  end.
Proof.
  unfold runTurn, bind.
  destruct (listen sv self h) as [[[text|]|e] o]; try reflexivity;
    [| unfold ret; now rewrite app_nil_r].
  destruct (PyStr.is_empty text); [unfold ret; now rewrite app_nil_r|].
  destruct (PyStr.mem _ exit_phrases).
  - unfold print at 1. cbv iota beta.
    destruct (speak sv self farewell _) as [[u|e] os]; [|reflexivity].
    unfold print, ret. reflexivity.
  - destruct (get_ai_response sv self text _) as [[reply|e] og];
      [|reflexivity].
    destruct (speak sv self reply _) as [[u|e] os]; [|reflexivity].
    unfold ret. now rewrite !app_nil_r.
Qed.

(** What [listen] leaves in the trace of a turn. *)
Lemma listen_quiet (h : trace) :
  no_dialogue_no_synthesis (snd (listen sv self h)).
Proof.
  destruct (listen_spec sv self h) as (Hcap & _).
  now apply capture_only_quiet.
Qed.

Lemma chat_quiet (text : string) (h : trace) :
  let o := snd (get_ai_response sv self text h) in
  synthesis_requests o = [] /\ fallback_requests o = []
  /\ synthesis_completed o = false /\ primary_failed o = false
  /\ fallback_raised o = false /\ fallback_failed o = false.
Proof.
  destruct (get_ai_response_spec sv self text h) as (Hchat & _).
  now apply chat_only_no_synthesis.
Qed.

Lemma ends_in_fallback_raise_app (pre t : trace) (e : exn) :
  fallback_failed pre = false ->
  ends_in_fallback_raise t e -> ends_in_fallback_raise (pre ++ t) e.
Proof.
  intros Hpre (t0 & R & c & -> & Hc & Ht0).
  exists (pre ++ t0), R, c. rewrite app_assoc. repeat split; [assumption|].
  now rewrite fallback_failed_app, Hpre, Ht0.
Qed.

(** A turn on a captured utterance that is neither empty nor an exit
    phrase: the utterance goes to the chat session as it is; the turn ends
    in [Continue] exactly when the synthesis ran to its end, and otherwise
    raises. *)
Lemma non_exit_turn (h : trace) (text : string) :
  fst (listen sv self h) = Ok (Some text) ->
  PyStr.is_empty text = false ->
  PyStr.mem (PyStr.strip (PyStr.lower text)) exit_phrases = false ->
  prompts (snd (runTurn sv self h)) = [text]
  /\ (synthesis_completed (snd (runTurn sv self h)) = true ->
      fst (runTurn sv self h) = Ok Continue)
  /\ (synthesis_completed (snd (runTurn sv self h)) = false ->
      exists e, fst (runTurn sv self h) = Raise e).
Proof.
  intros Hl Hne Hmem.
  rewrite !runTurn_eq.
  destruct (listen_quiet h) as (Hl1 & Hl2 & Hl3 & Hl4 & Hl5 & Hl6 & Hl7 & Hl8).
  destruct (listen sv self h) as [[[t|]|e] o]; try discriminate.
  cbn [fst snd] in *. injection Hl as ->. rewrite Hne, Hmem.
  pose proof (get_ai_response_spec sv self text (h ++ o)) as Hg.
  cbv zeta in Hg. destruct Hg as (_ & Hg1 & _).
  destruct (chat_quiet text (h ++ o)) as (Hc1 & Hc2 & Hc3 & _).
  destruct (get_ai_response sv self text (h ++ o)) as [[reply|e] og];
    cbn [fst snd] in *.
  - pose proof (speak_spec sv self reply ((h ++ o) ++ og)) as Hs.
    cbv zeta in Hs. destruct Hs as (Hs1 & _ & _ & _ & Hs5 & _).
    destruct (speak sv self reply ((h ++ o) ++ og)) as [[u|e] os];
      cbn [fst snd returned] in *;
      rewrite !prompts_app, !synthesis_completed_app, Hl1, Hl4, Hg1, Hc3,
        Hs1, Hs5; cbn [app orb]; repeat split; try discriminate; eauto.
  - rewrite !prompts_app, !synthesis_completed_app, Hl1, Hl4, Hg1, Hc3.
    cbn [app orb]; repeat split; try discriminate; eauto.
Qed.

End Turn.

(** Lay a turn out into its method calls, with what is known of each. *)
Ltac turn_cases sv self h :=
  rewrite !(runTurn_eq sv self h);
  let Hq := fresh "Hq" in
  let Hff := fresh "Hff" in
  let Hspec := fresh "Hlisten" in
  destruct (listen_quiet sv self h) as
    (?Hl1 & ?Hl2 & ?Hl3 & ?Hl4 & ?Hl5 & ?Hl6 & ?Hl7 & ?Hl8);
  pose proof (listen_spec sv self h) as Hspec;
  destruct Hspec as (_ & ?Hlexc & ?Hlnone);
  destruct (listen sv self h) as [[[?text|]|?e] ?o] eqn:?El;
  cbn [fst snd] in *.

(** Lay [get_ai_response] out at the history the goal calls it with. *)
Ltac chat_cases sv self :=
  match goal with
  | |- context [get_ai_response sv self ?t ?h] =>
      let Hs := fresh "Hchat" in
      pose proof (get_ai_response_spec sv self t h) as Hs;
      cbv zeta in Hs;
      destruct Hs as (_ & ?Hg1 & ?Hg2 & ?Hg3 & ?Hg4);
      destruct (chat_quiet sv self t h)
        as (?Hc1 & ?Hc2 & ?Hc3 & ?Hc4 & ?Hc5 & ?Hc6);
      destruct (get_ai_response sv self t h) as [[?reply|?e] ?og] eqn:?Eg;
      cbn [fst snd] in *
  end.

(** Lay [speak] out at the history the goal calls it with. *)
Ltac speak_cases sv self :=
  match goal with
  | |- context [speak sv self ?t ?h] =>
      let Hs := fresh "Hspeak" in
      pose proof (speak_spec sv self t h) as Hs;
      cbv zeta in Hs;
      destruct Hs as
        (?Hs1 & ?Hs2 & ?Hs3 & ?Hs4 & ?Hs5 & ?Hs6 & ?Hs7 & ?Hs8 & ?Hs9);
      destruct (speak sv self t h) as [[?u|?e] ?os] eqn:?Es;
      cbn [fst snd returned] in *
  end.

Ltac trace_rewrite :=
  match goal with
  | H : ?x = _ |- _ =>
      match x with
      | prompts _ => rewrite H in *
      | synthesis_requests _ => rewrite H in *
      | fallback_requests _ => rewrite H in *
      | synthesis_completed _ => rewrite H in *
      | primary_failed _ => rewrite H in *
      | fallback_raised _ => rewrite H in *
      | generate_failed _ => rewrite H in *
      | fallback_failed _ => rewrite H in *
      end
  end.

Ltac trace_norm :=
  repeat (progress (cbn [fst snd] in *; autorewrite with trace in * ));
  repeat trace_rewrite;
  cbn [app orb] in *;
  autorewrite with trace in *.

(** ** Properties of a turn *)

Section TurnProperties.

Variable sv : services.
Variable self : VoiceAI.

(** C4.  When the [try] block of [listen] raises an [Exception] (the wait
    timed out, the audio was unintelligible, or any other error of the
    microphone or the recognizer), [listen] returns [None] instead of
    raising, and the turn is [Idle] with no call to the chat session and no
    call to either synthesizer. *)
Theorem capture_failure_idle (h : trace) (e : exn) :
  fst (listen_try sv self h) = Raise e ->
  is_Exception e = true ->
  fst (listen sv self h) = Ok None
  /\ fst (runTurn sv self h) = Ok Idle
  /\ prompts (snd (runTurn sv self h)) = []
  /\ synthesis_requests (snd (runTurn sv self h)) = []
  /\ fallback_requests (snd (runTurn sv self h)) = [].
Proof.
  intros He Hexc.
  pose proof (listen_spec sv self h) as (_ & _ & Hnone).
  specialize (Hnone e He Hexc).
  split; [exact Hnone|].
  turn_cases sv self h; try discriminate.
  repeat split; assumption.
Qed.

(** C6.  In a turn where a call of the primary synthesis path raised an
    [Exception] and no call of the fallback path raised, the fallback was
    given exactly one text, the one the primary path was given, and the
    turn returned: no exception left [runTurn]. *)
Theorem primary_failure_fallback_once (h : trace) :
  primary_failed (snd (runTurn sv self h)) = true ->
  fallback_raised (snd (runTurn sv self h)) = false ->
  (exists text,
      synthesis_requests (snd (runTurn sv self h)) = [text]
      /\ fallback_requests (snd (runTurn sv self h)) = [text])
  /\ returned (fst (runTurn sv self h)) = true.
Proof.
  turn_cases sv self h; try congruence.
  destruct (PyStr.is_empty text); [cbn [fst snd]; congruence|].
  destruct (PyStr.mem _ exit_phrases).
  - speak_cases sv self; intros Hp Hf; trace_norm;
      destruct (Hs6 Hp Hf) as [Hr Hfb]; try discriminate.
    rewrite Hfb. split; [exists farewell; split|]; reflexivity.
  - chat_cases sv self; [|intros Hp Hf; trace_norm; congruence].
    speak_cases sv self; intros Hp Hf; trace_norm;
      destruct (Hs6 Hp Hf) as [Hr Hfb]; try discriminate.
    rewrite Hfb. split; [exists reply; split|]; reflexivity.
Qed.

(** C9.  For a captured utterance that is not empty and whose normal form
    is not an exit phrase, the one prompt sent to the chat session is the
    utterance as captured; when normalizing changes the utterance, the
    normal form is not what was sent. *)
Theorem prompt_is_original (h : trace) (text : string) :
  fst (listen sv self h) = Ok (Some text) ->
  text <> "" ->
  PyStr.mem (PyStr.strip (PyStr.lower text)) exit_phrases = false ->
  prompts (snd (runTurn sv self h)) = [text]
  /\ (PyStr.strip (PyStr.lower text) <> text ->
      ~ In (PyStr.strip (PyStr.lower text))
           (prompts (snd (runTurn sv self h)))).
Proof.
  intros Hl Hne Hmem.
  assert (Hp : prompts (snd (runTurn sv self h)) = [text]).
  { turn_cases sv self h; try discriminate.
    injection Hl as ->.
    destruct text as [|c text]; [congruence|]. cbn [PyStr.is_empty].
    rewrite Hmem.
    chat_cases sv self; [|trace_norm; reflexivity].
    speak_cases sv self; trace_norm; reflexivity. }
  split; [exact Hp|].
  rewrite Hp. intros Hd [Hin | []]. congruence.
Qed.

(** C1, amended.  For a captured utterance that is an exit phrase written in
    any mix of cases between leading and trailing whitespace, the turn makes
    exactly one synthesis request, for the farewell, and sends nothing to
    the chat session; it ends in [Exit] when the synthesis ran to its end,
    and raises when it did not. *)
Theorem exit_phrase_turn (h : trace) (pre body post p : string) :
  In p exit_phrases ->
  PyStr.all_space pre = true -> PyStr.all_space post = true ->
  PyStr.case_variant body p = true ->
  fst (listen sv self h) = Ok (Some (pre ++ body ++ post)%string) ->
  synthesis_requests (snd (runTurn sv self h)) = [farewell]
  /\ prompts (snd (runTurn sv self h)) = []
  /\ (synthesis_completed (snd (runTurn sv self h)) = true ->
      fst (runTurn sv self h) = Ok Exit)
  /\ (synthesis_completed (snd (runTurn sv self h)) = false ->
      exists e, fst (runTurn sv self h) = Raise e).
Proof.
  intros Hp Hpre Hpost Hbody Hl.
  pose proof (PyStrFacts.normalize_exit_phrase pre body post p
                Hp Hpre Hpost Hbody) as Hnorm.
  assert (Hmem : PyStr.mem (PyStr.strip (PyStr.lower (pre ++ body ++ post)))
                   exit_phrases = true).
  { rewrite Hnorm. now apply PyStrFacts.mem_In. }
  assert (Hne : PyStr.is_empty (pre ++ body ++ post) = false).
  { destruct (pre ++ body ++ post)%string; [|reflexivity].
    cbn in Hnorm. subst p. cbn in Hp. intuition discriminate. }
  turn_cases sv self h; try discriminate.
  injection Hl as ->. rewrite Hne, Hmem.
  speak_cases sv self; trace_norm; repeat split; try discriminate; eauto.
Qed.

(** C5, amended.  In a turn where the chat call raised an [Exception], the
    one text handed to the synthesizer is the apology; the turn ends in
    [Continue] when the synthesis ran to its end; an [Exception] that leaves
    the turn was raised by its last call, a call of the fallback
    synthesizer; and [get_ai_response] itself returns the apology. *)
Theorem generate_failure_apology (h : trace) :
  generate_failed (snd (runTurn sv self h)) = true ->
  synthesis_requests (snd (runTurn sv self h)) = [apology]
  /\ (synthesis_completed (snd (runTurn sv self h)) = true ->
      fst (runTurn sv self h) = Ok Continue)
  /\ (forall e, fst (runTurn sv self h) = Raise e -> is_Exception e = true ->
      ends_in_fallback_raise (snd (runTurn sv self h)) e)
  /\ (forall text h',
      generate_failed (snd (get_ai_response sv self text h')) = true ->
      fst (get_ai_response sv self text h') = Ok apology).
Proof.
  intros Hgen.
  assert (Hchat : forall text h',
             generate_failed (snd (get_ai_response sv self text h')) = true ->
             fst (get_ai_response sv self text h') = Ok apology).
  { intros text h'. apply (get_ai_response_spec sv self text h'). }
  revert Hgen.
  turn_cases sv self h; try congruence.
  destruct (PyStr.is_empty text); [cbn [fst snd]; congruence|].
  destruct (PyStr.mem _ exit_phrases).
  - speak_cases sv self; intros Hgen; trace_norm; discriminate.
  - chat_cases sv self.
    + speak_cases sv self; intros Hgen; trace_norm;
        specialize (Hg3 Hgen); injection Hg3 as ->;
        repeat split; try discriminate; try assumption.
      intros e0 He0 Hexc. injection He0 as ->.
      rewrite app_assoc. apply ends_in_fallback_raise_app.
      * now rewrite fallback_failed_app, Hl8, Hc6.
      * now apply Hs7.
    + intros Hgen; trace_norm. specialize (Hg3 Hgen). discriminate.
Qed.

(** C7, amended.  For a captured utterance that is not empty and not an exit
    phrase, the turn sends the utterance to the chat session, and
    [get_ai_response] lets no [Exception] through; with the reply it
    returns, the turn makes exactly one synthesis request, for that reply,
    and its events are those of [listen], then those of [get_ai_response],
    then those of [speak]; the turn ends in [Continue] when [speak]
    returns, that is, when the synthesis ran to its end. *)
Theorem normal_turn (h : trace) (text : string) :
  fst (listen sv self h) = Ok (Some text) ->
  text <> "" ->
  PyStr.mem (PyStr.strip (PyStr.lower text)) exit_phrases = false ->
  let h1 := h ++ snd (listen sv self h) in
  let h2 := h1 ++ snd (get_ai_response sv self text h1) in
  prompts (snd (runTurn sv self h)) = [text]
  /\ (forall e, fst (get_ai_response sv self text h1) = Raise e ->
      is_Exception e = false)
  /\ (forall reply,
      fst (get_ai_response sv self text h1) = Ok reply ->
      synthesis_requests (snd (runTurn sv self h)) = [reply]
      /\ snd (runTurn sv self h)
         = snd (listen sv self h)
           ++ snd (get_ai_response sv self text h1)
           ++ snd (speak sv self reply h2)
      /\ (returned (fst (speak sv self reply h2)) = true ->
          fst (runTurn sv self h) = Ok Continue))
  /\ (synthesis_completed (snd (runTurn sv self h)) = true ->
      fst (runTurn sv self h) = Ok Continue).
Proof.
  intros Hl Hne Hmem.
  assert (Hemp : PyStr.is_empty text = false)
    by (destruct text; [congruence | reflexivity]).
  destruct (non_exit_turn sv self h text Hl Hemp Hmem) as (Hp & Hc & _).
  cbv zeta.
  split; [exact Hp|].
  split; [apply (get_ai_response_spec sv self text)|].
  split; [|exact Hc]. clear Hp Hc.
  intros reply0.
  turn_cases sv self h; try discriminate.
  injection Hl as ->. rewrite Hemp, Hmem.
  chat_cases sv self; [|discriminate].
  intros Hr. injection Hr as <-.
  speak_cases sv self; trace_norm; repeat split; discriminate.
Qed.

(** C8, amended.  Exit detection compares the whole normal form: for a
    captured utterance whose normal form contains an exit phrase without
    being one, the turn does not end in [Exit]; it sends the utterance to
    the chat session, and ends in [Continue] when the synthesis ran to its
    end. *)
Theorem embedded_exit_phrase (h : trace) (text p : string) :
  fst (listen sv self h) = Ok (Some text) ->
  In p exit_phrases ->
  PyStr.contains p (PyStr.strip (PyStr.lower text)) ->
  ~ In (PyStr.strip (PyStr.lower text)) exit_phrases ->
  fst (runTurn sv self h) <> Ok Exit
  /\ prompts (snd (runTurn sv self h)) = [text]
  /\ (synthesis_completed (snd (runTurn sv self h)) = true ->
      fst (runTurn sv self h) = Ok Continue).
Proof.
  intros Hl Hp (a & b & Hsub) Hnot.
  assert (Hmem : PyStr.mem (PyStr.strip (PyStr.lower text)) exit_phrases
                 = false).
  { destruct (PyStr.mem _ exit_phrases) eqn:E; [|reflexivity].
    apply PyStrFacts.mem_In in E. contradiction. }
  assert (Hemp : PyStr.is_empty text = false).
  { destruct text; [|reflexivity]. cbn in Hsub.
    destruct a; [|discriminate]. cbn in Hsub.
    cbn in Hp. decompose [or] Hp; try contradiction; subst p; discriminate. }
  destruct (non_exit_turn sv self h text Hl Hemp Hmem) as (Hpr & Hc & Hr).
  repeat split; try assumption.
  destruct (synthesis_completed (snd (runTurn sv self h))).
  - rewrite (Hc eq_refl). discriminate.
  - destruct (Hr eq_refl) as (e & ->). discriminate.
Qed.

(** C10, amended.  A captured utterance made of whitespace only is not
    taken for an empty capture: the turn is not [Idle], the normal form is
    no exit phrase, the utterance is sent to the chat session as it is, and
    the turn ends in [Continue] when the synthesis ran to its end. *)
Theorem whitespace_utterance_forwarded (h : trace) (text : string) :
  fst (listen sv self h) = Ok (Some text) ->
  text <> "" ->
  PyStr.all_space text = true ->
  fst (runTurn sv self h) <> Ok Idle
  /\ PyStr.mem (PyStr.strip (PyStr.lower text)) exit_phrases = false
  /\ prompts (snd (runTurn sv self h)) = [text]
  /\ (synthesis_completed (snd (runTurn sv self h)) = true ->
      fst (runTurn sv self h) = Ok Continue).
Proof.
  intros Hl Hne Hsp.
  assert (Hmem : PyStr.mem (PyStr.strip (PyStr.lower text)) exit_phrases
                 = false)
    by now rewrite (PyStrFacts.strip_all_space_lower text Hsp).
  assert (Hemp : PyStr.is_empty text = false)
    by (destruct text; [congruence | reflexivity]).
  destruct (non_exit_turn sv self h text Hl Hemp Hmem) as (Hpr & Hc & Hr).
  repeat split; try assumption.
  destruct (synthesis_completed (snd (runTurn sv self h))).
  - rewrite (Hc eq_refl). discriminate.
  - destruct (Hr eq_refl) as (e & ->). discriminate.
Qed.

End TurnProperties.

(** ** The loop and the process *)

Section Process.

Variable sv : services.

(** An [Exception] leaves a turn only from the fallback synthesizer: the
    errors of capture, of the chat call and of the primary path are handled
    inside the turn. *)
Lemma runTurn_exception (self : VoiceAI) (h : trace) :
  (forall e, fst (runTurn sv self h) = Raise e -> is_Exception e = true ->
             ends_in_fallback_raise (snd (runTurn sv self h)) e)
  /\ (fallback_failed (snd (runTurn sv self h)) = true ->
      exists e, fst (runTurn sv self h) = Raise e /\ is_Exception e = true).
Proof.
  turn_cases sv self h.
  - destruct (PyStr.is_empty text);
      [split; [discriminate | cbn [fst snd]; congruence]|].
    destruct (PyStr.mem _ exit_phrases).
    + speak_cases sv self; trace_norm;
        (split; [|intros Hf; first [ rewrite (Hs8 eq_refl) in Hf;
                                     discriminate
                                   | destruct (Hs9 Hf) as (e0 & He0 & Hx);
                                     injection He0 as <-; eauto ]]);
        intros e' He' Hexc; try discriminate.
      injection He' as ->.
      change (Print farewell :: os) with ([Print farewell] ++ os).
      rewrite app_assoc. apply ends_in_fallback_raise_app; [|now apply Hs7].
      now rewrite fallback_failed_app, Hl8.
    + chat_cases sv self.
      * speak_cases sv self; trace_norm;
          (split; [|intros Hf; first [ rewrite (Hs8 eq_refl) in Hf;
                                       discriminate
                                     | destruct (Hs9 Hf) as (e0 & He0 & Hx);
                                       injection He0 as <-; eauto ]]);
          intros e' He' Hexc; try discriminate.
        injection He' as ->.
        rewrite app_assoc. apply ends_in_fallback_raise_app; [|now apply Hs7].
        now rewrite fallback_failed_app, Hl8, Hc6.
      * trace_norm. split; [|discriminate].
        intros e' He' Hexc. injection He' as <-.
        rewrite (Hg2 e eq_refl) in Hexc. discriminate.
  - split; [discriminate | congruence].
  - split; [|congruence].
    intros e' He' Hexc. injection He' as <-.
    rewrite (Hlexc e eq_refl) in Hexc. discriminate.
Qed.

(** One more turn of the loop. *)
Lemma while_True_eq (body : M status) (n : nat) (h : trace) :
  while_True (S n) body h =
  match body h with
  | (Ok Exit, o) => (Ok (Some tt), o)
  | (Ok _, o) => let (r, o2) := while_True n body (h ++ o) in (r, o ++ o2)
  | (Raise e, o) => (Raise e, o)
  end.
Proof.
  cbn [while_True]. unfold bind.
  destruct (body h) as [[[]|e] o]; try reflexivity.
  unfold ret. now rewrite app_nil_r.
Qed.

(** In the loop, a failure of the fallback synthesizer is the last thing
    that happens: the loop raises that [Exception] there. *)
Lemma while_True_fallback_failure (self : VoiceAI) (fuel : nat) (h : trace) :
  fallback_failed (snd (while_True fuel (runTurn sv self) h)) = true ->
  exists e,
    fst (while_True fuel (runTurn sv self) h) = Raise e
    /\ is_Exception e = true
    /\ ends_in_fallback_raise
         (snd (while_True fuel (runTurn sv self) h)) e.
Proof.
  revert h. induction fuel as [|n IH]; intros h; [discriminate|].
  rewrite while_True_eq.
  destruct (runTurn_exception self h) as (Hexc & Hff).
  destruct (runTurn sv self h) as [[st|e] o]; cbn [fst snd] in *.
  - assert (Ho : fallback_failed o = false).
    { destruct (fallback_failed o); [|reflexivity].
      destruct (Hff eq_refl) as (e & He & _). discriminate. }
    assert (Hnext :
             fallback_failed
               (snd (let (r, o2) := while_True n (runTurn sv self) (h ++ o)
                     in (r, o ++ o2))) = true ->
             exists e,
               fst (let (r, o2) := while_True n (runTurn sv self) (h ++ o)
                    in (r, o ++ o2)) = Raise e
               /\ is_Exception e = true
               /\ ends_in_fallback_raise
                    (snd (let (r, o2) :=
                            while_True n (runTurn sv self) (h ++ o)
                          in (r, o ++ o2))) e).
    { specialize (IH (h ++ o)).
      destruct (while_True n (runTurn sv self) (h ++ o)) as [r o2].
      cbn [fst snd] in *. rewrite fallback_failed_app, Ho. cbn [orb].
      intros H2. destruct (IH H2) as (e & He & Hexc2 & Hend).
      exists e. split; [assumption|]. split; [assumption|].
      now apply ends_in_fallback_raise_app. }
    destruct st; [exact Hnext | cbn [snd]; congruence | exact Hnext].
  - intros H. destruct (Hff H) as (e' & He' & Hexc').
    injection He' as <-.
    exists e. split; [reflexivity|]. split; [assumption|].
    now apply Hexc.
Qed.

Lemma snoc_shift (a : trace) (x y : event) (b pre : trace) :
  (a ++ b ++ (pre ++ [x])) ++ [y] = (a ++ b ++ pre) ++ [x; y].
Proof. rewrite <- !app_assoc. reflexivity. Qed.

(** [__init__] never calls a synthesizer. *)
Lemma VoiceAI_init_quiet (k1 k2 v : pyval) (h : trace) :
  fallback_failed (snd (VoiceAI_init sv k1 k2 v h)) = false.
Proof.
  open_py. repeat case_call sv; reflexivity.
Qed.

(** C3, amended.  When one of the three required values is absent from the
    environment, [main] prints one fixed message, the same whichever value
    is missing: the heading and a line for each of the three required keys,
    the ones that are set included; it then leaves through [sys.exit(1)]:
    the process ends with exit code 1, having made no external call and run
    no turn. *)
Theorem missing_credential_exit (environ : string -> pyval) (fuel : nat)
  (h : trace) :
  (exists k, In k required_keys /\ environ k = None) ->
  process (fst (main sv environ fuel h)) = Some (ExitCode 1)
  /\ snd (main sv environ fuel h)
     = [ Print "Missing API keys or voice ID. Please check your .env file:";
         Print "GEMINI_API_KEY=...";
         Print "ELEVENLABS_API_KEY=...";
         Print "ELEVENLABS_VOICE_ID=..." ]
  /\ (forall k, In k required_keys ->
      In (k ++ "=...")%string (printed (snd (main sv environ fuel h)))).
Proof.
  intros (k & Hin & Hk).
  assert (Hmiss : not_ (environ "GEMINI_API_KEY")
                  || not_ (environ "ELEVENLABS_API_KEY")
                  || not_ (environ "ELEVENLABS_VOICE_ID") = true).
  { cbn in Hin. decompose [or] Hin; try contradiction; subst k; rewrite Hk;
      cbn [not_]; rewrite ?orb_true_r; reflexivity. }
  unfold main. rewrite Hmiss. cbn.
  repeat split.
  intros k' Hin'. cbn in Hin'.
  decompose [or] Hin'; try contradiction; subst k'; cbn; tauto.
Qed.

(** C2, amended.  When a call of the fallback synthesizer raises an
    [Exception] [e], the process ends there: that call is the last external
    call, [main] catches [e], prints "Unexpected error: " followed by [e],
    and returns, so the exit code is 0 and no further turn runs.  The
    fallback is the only place an [Exception] can leave a turn from: the
    errors of capture, of the chat call and of the primary synthesis path
    are handled inside the turn. *)
Theorem fallback_failure_ends_process (environ : string -> pyval)
  (fuel : nat) (h : trace) :
  (fallback_failed (snd (main sv environ fuel h)) = true ->
   fst (main sv environ fuel h) = Ok (Some tt)
   /\ process (fst (main sv environ fuel h)) = Some (ExitCode 0)
   /\ exists pre R (c : call R) e,
       snd (main sv environ fuel h)
       = pre ++ [Called c (Raise e); Print ("Unexpected error: " ++ str e)]
       /\ is_fallback c = true /\ is_Exception e = true
       /\ fallback_failed pre = false)
  /\ (forall self h' e,
      fst (runTurn sv self h') = Raise e -> is_Exception e = true ->
      ends_in_fallback_raise (snd (runTurn sv self h')) e).
Proof.
  split; [|intros self h'; apply runTurn_exception].
  destruct (main sv environ fuel h) as [rm om] eqn:Hmain.
  cbn [fst snd]. revert Hmain. unfold main.
  destruct (not_ (environ "GEMINI_API_KEY")
            || not_ (environ "ELEVENLABS_API_KEY")
            || not_ (environ "ELEVENLABS_VOICE_ID"));
    [cbn; intros Hm; injection Hm as <- <-; discriminate|].
  unfold bind at 1. unfold ret at 1. cbv iota beta.
  unfold try_except, bind at 1.
  pose proof (VoiceAI_init_quiet (environ "GEMINI_API_KEY")
                (environ "ELEVENLABS_API_KEY")
                (environ "ELEVENLABS_VOICE_ID") (h ++ [])) as Hinit.
  destruct (VoiceAI_init sv _ _ _ (h ++ [])) as [[self|e] oi];
    cbn [fst snd] in Hinit.
  - unfold run, bind, print. cbv iota beta.
    match goal with
    | |- context [while_True fuel ?b ?hh] =>
        pose proof (while_True_fallback_failure self fuel hh) as Hloop;
        destruct (while_True fuel b hh) as [r ow]
    end.
    cbn [fst snd] in Hloop.
    destruct r as [v|e].
    + cbn [fst snd app]. intros Hm. injection Hm as <- <-.
      autorewrite with trace. rewrite Hinit. cbn [orb].
      intros Hf. destruct (Hloop Hf) as (e & He & _). discriminate.
    + destruct (fallback_failed ow) eqn:How.
      * destruct (Hloop eq_refl) as (e' & He' & Hexc & pre & R & c & Hpre
                                     & Hc & Hffpre).
        injection He' as <-.
        subst ow.
        destruct e; try discriminate Hexc;
          cbn [is_KeyboardInterrupt is_Exception dispatch fst snd];
          intros Hm; injection Hm as <- <-; intros _;
          (split; [reflexivity|]; split; [reflexivity|]);
          eexists (oi ++ [_; _; _; _] ++ pre), R, c, _;
          (split; [apply (snoc_shift oi _ _ [_; _; _; _] pre)|]);
          (split; [assumption|]); (split; [reflexivity|]);
          rewrite !fallback_failed_app, Hinit, Hffpre; reflexivity.
      * destruct e; cbn; intros Hm; injection Hm as <- <-;
          autorewrite with trace; rewrite ?Hinit, ?How; discriminate.
  - destruct e; cbn; intros Hm; injection Hm as <- <-;
      autorewrite with trace; rewrite ?Hinit; discriminate.
Qed.

End Process.

(** ** The theorems at concrete worlds *)

Lemma capture_failure_idle_witness :
  fst (listen_try (working (Raise (UnknownValueError "")) (Ok "")) agent [])
  = Raise (UnknownValueError "")
  /\ is_Exception (UnknownValueError "") = true
  /\ fst (listen (working (Raise (UnknownValueError "")) (Ok "")) agent [])
     = Ok None
  /\ fst (runTurn (working (Raise (UnknownValueError "")) (Ok "")) agent [])
     = Ok Idle.
Proof.
  split; [reflexivity|]. split; [reflexivity|].
  pose proof (capture_failure_idle
                (working (Raise (UnknownValueError "")) (Ok "")) agent []
                (UnknownValueError "") eq_refl eq_refl) as (H1 & H2 & _).
  split; assumption.
Defined.

Lemma primary_failure_fallback_once_witness :
  primary_failed
    (snd (runTurn (primary_down (Ok "Hello there") (Ok "Hi!")) agent []))
  = true
  /\ fallback_raised
       (snd (runTurn (primary_down (Ok "Hello there") (Ok "Hi!")) agent []))
     = false
  /\ returned
       (fst (runTurn (primary_down (Ok "Hello there") (Ok "Hi!")) agent []))
     = true.
Proof.
  split; [reflexivity|]. split; [reflexivity|].
  exact (proj2 (primary_failure_fallback_once
                  (primary_down (Ok "Hello there") (Ok "Hi!")) agent []
                  eq_refl eq_refl)).
Defined.

Lemma prompt_is_original_witness :
  fst (listen (working (Ok " Hello There ") (Ok "Hi!")) agent [])
  = Ok (Some " Hello There ")
  /\ " Hello There " <> ""
  /\ PyStr.mem (PyStr.strip (PyStr.lower " Hello There ")) exit_phrases
     = false
  /\ prompts (snd (runTurn (working (Ok " Hello There ") (Ok "Hi!")) agent []))
     = [" Hello There "].
Proof.
  split; [reflexivity|]. split; [discriminate|]. split; [reflexivity|].
  refine (proj1 (prompt_is_original
                   (working (Ok " Hello There ") (Ok "Hi!")) agent []
                   " Hello There " eq_refl _ eq_refl)).
  discriminate.
Defined.

Lemma exit_phrase_turn_witness :
  In "goodbye" exit_phrases
  /\ PyStr.all_space "  " = true /\ PyStr.all_space " " = true
  /\ PyStr.case_variant "GoodBye" "goodbye" = true
  /\ fst (listen (working (Ok "  GoodBye ") (Ok "")) agent [])
     = Ok (Some ("  " ++ "GoodBye" ++ " ")%string)
  /\ synthesis_requests
       (snd (runTurn (working (Ok "  GoodBye ") (Ok "")) agent []))
     = [farewell]
  /\ prompts (snd (runTurn (working (Ok "  GoodBye ") (Ok "")) agent []))
     = [].
Proof.
  assert (Hin : In "goodbye" exit_phrases) by (cbn; tauto).
  split; [exact Hin|]. repeat (split; [reflexivity|]).
  pose proof (exit_phrase_turn (working (Ok "  GoodBye ") (Ok "")) agent []
                "  " "GoodBye" " " "goodbye" Hin eq_refl eq_refl eq_refl
                eq_refl) as (H1 & H2 & _).
  split; assumption.
Defined.

Lemma generate_failure_apology_witness :
  generate_failed
    (snd (runTurn (working (Ok "Hello there") (Raise (Exception_ "quota")))
            agent []))
  = true
  /\ synthesis_requests
       (snd (runTurn (working (Ok "Hello there") (Raise (Exception_ "quota")))
               agent []))
     = [apology].
Proof.
  split; [reflexivity|].
  exact (proj1 (generate_failure_apology
                  (working (Ok "Hello there") (Raise (Exception_ "quota")))
                  agent [] eq_refl)).
Defined.

Lemma normal_turn_witness :
  fst (listen (working (Ok "Hello there") (Ok "Hi! How can I help?"))
         agent [])
  = Ok (Some "Hello there")
  /\ "Hello there" <> ""
  /\ PyStr.mem (PyStr.strip (PyStr.lower "Hello there")) exit_phrases = false
  /\ prompts
       (snd (runTurn (working (Ok "Hello there") (Ok "Hi! How can I help?"))
               agent []))
     = ["Hello there"].
Proof.
  split; [reflexivity|]. split; [discriminate|]. split; [reflexivity|].
  refine (proj1 (normal_turn
                   (working (Ok "Hello there") (Ok "Hi! How can I help?"))
                   agent [] "Hello there" eq_refl _ eq_refl)).
  discriminate.
Defined.

Lemma embedded_exit_phrase_witness :
  fst (listen (working (Ok "Please EXIT now") (Ok "Why?")) agent [])
  = Ok (Some "Please EXIT now")
  /\ In "exit" exit_phrases
  /\ PyStr.contains "exit" (PyStr.strip (PyStr.lower "Please EXIT now"))
  /\ ~ In (PyStr.strip (PyStr.lower "Please EXIT now")) exit_phrases
  /\ fst (runTurn (working (Ok "Please EXIT now") (Ok "Why?")) agent [])
     <> Ok Exit.
Proof.
  assert (Hin : In "exit" exit_phrases) by (cbn; tauto).
  assert (Hsub : PyStr.contains "exit"
                   (PyStr.strip (PyStr.lower "Please EXIT now")))
    by (exists "please ", " now"; reflexivity).
  assert (Hnot : ~ In (PyStr.strip (PyStr.lower "Please EXIT now"))
                      exit_phrases)
    by (cbn; intros H; decompose [or] H; try discriminate; assumption).
  split; [reflexivity|]. split; [exact Hin|]. split; [exact Hsub|].
  split; [exact Hnot|].
  exact (proj1 (embedded_exit_phrase
                  (working (Ok "Please EXIT now") (Ok "Why?")) agent []
                  "Please EXIT now" "exit" eq_refl Hin Hsub Hnot)).
Defined.

Lemma whitespace_utterance_forwarded_witness :
  fst (listen (working (Ok "   ") (Ok "Pardon?")) agent []) = Ok (Some "   ")
  /\ "   " <> ""
  /\ PyStr.all_space "   " = true
  /\ fst (runTurn (working (Ok "   ") (Ok "Pardon?")) agent []) <> Ok Idle.
Proof.
  split; [reflexivity|]. split; [discriminate|]. split; [reflexivity|].
  refine (proj1 (whitespace_utterance_forwarded
                   (working (Ok "   ") (Ok "Pardon?")) agent [] "   "
                   eq_refl _ eq_refl)).
  discriminate.
Defined.

Lemma missing_credential_exit_witness :
  (exists k, In k required_keys /\ no_voice_environ k = None)
  /\ process
       (fst (main (working (Ok "quit") (Ok "")) no_voice_environ 3 []))
     = Some (ExitCode 1).
Proof.
  assert (Hk : exists k, In k required_keys /\ no_voice_environ k = None)
    by (exists "ELEVENLABS_VOICE_ID"; split; [cbn; tauto | reflexivity]).
  split; [exact Hk|].
  exact (proj1 (missing_credential_exit
                  (working (Ok "quit") (Ok "")) no_voice_environ 3 [] Hk)).
Defined.

Lemma fallback_failure_ends_process_witness :
  fallback_failed
    (snd (main (no_audio (Ok "Hello there") (Ok "Hi!")) full_environ 3 []))
  = true
  /\ fst (main (no_audio (Ok "Hello there") (Ok "Hi!")) full_environ 3 [])
     = Ok (Some tt)
  /\ process
       (fst (main (no_audio (Ok "Hello there") (Ok "Hi!")) full_environ 3 []))
     = Some (ExitCode 0).
Proof.
  split; [reflexivity|].
  pose proof (proj1 (fallback_failure_ends_process
                       (no_audio (Ok "Hello there") (Ok "Hi!"))
                       full_environ 3 []) eq_refl) as (H1 & H2 & _).
  split; assumption.
Defined.

(** ** Where both synthesizers are down *)

(** C1 as stated fails: "quit" is captured, the primary synthesizer and then
    the fallback raise, and the turn raises instead of ending in [Exit]. *)
Lemma exit_phrase_turn_counterexample :
  fst (listen (no_audio (Ok "quit") (Ok "")) agent []) = Ok (Some "quit")
  /\ In "quit" exit_phrases
  /\ synthesis_requests (snd (runTurn (no_audio (Ok "quit") (Ok "")) agent []))
     = [farewell]
  /\ fst (runTurn (no_audio (Ok "quit") (Ok "")) agent [])
     = Raise (Exception_ "no audio device")
  /\ fst (runTurn (no_audio (Ok "quit") (Ok "")) agent []) <> Ok Exit.
Proof.
  repeat split; try reflexivity; [cbn; tauto | discriminate].
Qed.

(** C2 as stated fails: the world would let the loop go on for ever
    ("Hello there" is heard at every turn), yet with both synthesizers down
    the process has ended after the first turn, with exit code 0: one
    prompt was sent, and the last line printed is the one of the handler in
    [main]. *)
Lemma fallback_failure_counterexample :
  fst (runTurn (no_audio (Ok "Hello there") (Ok "Hi!")) agent [])
  = Raise (Exception_ "no audio device")
  /\ process
       (fst (main (no_audio (Ok "Hello there") (Ok "Hi!")) full_environ 3 []))
     = Some (ExitCode 0)
  /\ prompts
       (snd (main (no_audio (Ok "Hello there") (Ok "Hi!")) full_environ 3 []))
     = ["Hello there"]
  /\ last (printed
             (snd (main (no_audio (Ok "Hello there") (Ok "Hi!"))
                     full_environ 3 []))) ""
     = "Unexpected error: no audio device"
  /\ process
       (fst (main (primary_down (Ok "Hello there") (Ok "Hi!"))
               full_environ 3 []))
     = None
  /\ prompts
       (snd (main (primary_down (Ok "Hello there") (Ok "Hi!"))
               full_environ 3 []))
     = ["Hello there"; "Hello there"; "Hello there"].
Proof.
  repeat split; reflexivity.
Qed.

(** C3 as stated fails: only the voice identifier is missing, yet the
    message has a line for the Gemini key, which is set; and the message is
    the very one printed when it is the Gemini key that is missing.  The
    message names the required keys, not the missing ones. *)
Lemma missing_credential_counterexample :
  (exists k, In k required_keys /\ no_voice_environ k = None)
  /\ no_voice_environ "GEMINI_API_KEY" = Some "set"
  /\ In "GEMINI_API_KEY=..."
       (printed (snd (main (working (Ok "quit") (Ok "")) no_voice_environ
                        3 [])))
  /\ snd (main (working (Ok "quit") (Ok "")) no_voice_environ 3 [])
     = snd (main (working (Ok "quit") (Ok "")) no_gemini_environ 3 []).
Proof.
  split; [exists "ELEVENLABS_VOICE_ID"; split; [cbn; tauto | reflexivity]|].
  split; [reflexivity|]. split; [cbn; tauto | reflexivity].
Qed.

(** C5 as stated fails: the chat call fails and both synthesizers are down;
    the apology is what the synthesizers were asked to say, but the turn
    raises instead of ending in [Continue]. *)
Lemma generate_failure_counterexample :
  generate_failed
    (snd (runTurn (no_audio (Ok "Hello there") (Raise (Exception_ "quota")))
            agent []))
  = true
  /\ synthesis_requests
       (snd (runTurn (no_audio (Ok "Hello there") (Raise (Exception_ "quota")))
               agent []))
     = [apology]
  /\ fst (runTurn (no_audio (Ok "Hello there") (Raise (Exception_ "quota")))
            agent [])
     = Raise (Exception_ "no audio device")
  /\ fst (runTurn (no_audio (Ok "Hello there") (Raise (Exception_ "quota")))
            agent [])
     <> Ok Continue.
Proof.
  repeat split; try reflexivity. discriminate.
Qed.

(** C7 as stated fails: "Hello there" is captured and answered, both
    synthesizers are down, and the turn raises instead of ending in
    [Continue]. *)
Lemma normal_turn_counterexample :
  fst (listen (no_audio (Ok "Hello there") (Ok "Hi! How can I help?"))
         agent [])
  = Ok (Some "Hello there")
  /\ PyStr.mem (PyStr.strip (PyStr.lower "Hello there")) exit_phrases = false
  /\ fst (get_ai_response
            (no_audio (Ok "Hello there") (Ok "Hi! How can I help?")) agent
            "Hello there" [])
     = Ok "Hi! How can I help?"
  /\ fst (runTurn (no_audio (Ok "Hello there") (Ok "Hi! How can I help?"))
            agent [])
     = Raise (Exception_ "no audio device")
  /\ fst (runTurn (no_audio (Ok "Hello there") (Ok "Hi! How can I help?"))
            agent [])
     <> Ok Continue.
Proof.
  repeat split; try reflexivity. discriminate.
Qed.

(** C8 as stated fails: "please exit now" is captured, both synthesizers
    are down, and the turn, which is indeed not an [Exit], raises instead of
    ending in [Continue]. *)
Lemma embedded_exit_phrase_counterexample :
  fst (listen (no_audio (Ok "please exit now") (Ok "Why?")) agent [])
  = Ok (Some "please exit now")
  /\ PyStr.strip (PyStr.lower "please exit now") = "please exit now"
  /\ prompts
       (snd (runTurn (no_audio (Ok "please exit now") (Ok "Why?")) agent []))
     = ["please exit now"]
  /\ fst (runTurn (no_audio (Ok "please exit now") (Ok "Why?")) agent [])
     = Raise (Exception_ "no audio device")
  /\ fst (runTurn (no_audio (Ok "please exit now") (Ok "Why?")) agent [])
     <> Ok Continue.
Proof.
  repeat split; try reflexivity. discriminate.
Qed.

(** C10 as stated fails: three spaces are captured, both synthesizers are
    down, and the turn, which is indeed not [Idle], raises instead of ending
    in [Continue]. *)
Lemma whitespace_utterance_counterexample :
  fst (listen (no_audio (Ok "   ") (Ok "Pardon?")) agent []) = Ok (Some "   ")
  /\ PyStr.all_space "   " = true
  /\ prompts (snd (runTurn (no_audio (Ok "   ") (Ok "Pardon?")) agent []))
     = ["   "]
  /\ fst (runTurn (no_audio (Ok "   ") (Ok "Pardon?")) agent [])
     = Raise (Exception_ "no audio device")
  /\ fst (runTurn (no_audio (Ok "   ") (Ok "Pardon?")) agent [])
     <> Ok Continue.
Proof.
  repeat split; try reflexivity. discriminate.
Qed.

(** * Beyond the turn: the rest of the program *)

(** ** More facts about strings and traces *)

Module MoreFacts.
Import PyStr.
Local Open Scope string_scope.

Lemma rstrip_idempotent (s : string) : rstrip (rstrip s) = rstrip s.
Proof.
  induction s as [|c s IH]; [reflexivity|].
  cbn [rstrip].
  destruct (isspace c && is_empty (rstrip s)) eqn:E; [reflexivity|].
  cbn [rstrip]. rewrite IH, E. reflexivity.
Qed.

Lemma rstrip_keeps_head (c : ascii) (s : string) :
  isspace c = false -> rstrip (String c s) = String c (rstrip s).
Proof. intros H. cbn [rstrip]. now rewrite H. Qed.

Lemma lstrip_head (s : string) :
  lstrip s = EmptyString
  \/ exists c t, lstrip s = String c t /\ isspace c = false.
Proof.
  induction s as [|c s IH]; [now left|].
  cbn [lstrip]. destruct (isspace c) eqn:E; [exact IH|].
  right. now exists c, s.
Qed.

(** [strip] leaves nothing to strip. *)
Lemma strip_idempotent (s : string) : strip (strip s) = strip s.
Proof.
  unfold strip.
  destruct (lstrip_head s) as [-> | (c & t & -> & Hc)]; [reflexivity|].
  rewrite (rstrip_keeps_head c t Hc).
  rewrite (PyStrFacts.lstrip_nonspace c (rstrip t) Hc).
  rewrite (rstrip_keeps_head c (rstrip t) Hc).
  now rewrite rstrip_idempotent.
Qed.

End MoreFacts.

Section MoreTraceFacts.

Lemma some_call_print sel how (l : string) (t : trace) :
  some_call sel how (Print l :: t) = some_call sel how t.
Proof. reflexivity. Qed.

Lemma printed_app (a b : trace) : printed (a ++ b) = printed a ++ printed b.
Proof. unfold printed. apply flat_map_app. Qed.

Lemma last_printed_snoc (t : trace) (l : string) :
  last_printed (t ++ [Print l]) = l.
Proof.
  unfold last_printed. rewrite printed_app. cbn [printed flat_map app].
  apply last_last.
Qed.

Lemma calls_only_app sel (a b : trace) :
  calls_only sel (a ++ b) = calls_only sel a && calls_only sel b.
Proof. unfold calls_only. apply forallb_app. Qed.

Lemma calls_only_weaken (sel1 sel2 : forall R, call R -> bool) (t : trace) :
  (forall R (c : call R), sel1 R c = true -> sel2 R c = true) ->
  calls_only sel1 t = true -> calls_only sel2 t = true.
Proof.
  intros Hsel. induction t as [|ev t IH]; [reflexivity|].
  cbn [calls_only forallb]. intros H. apply andb_true_iff in H as [Hev Ht].
  apply andb_true_iff. split; [|now apply IH].
  destruct ev as [l | R c r]; [reflexivity | now apply Hsel].
Qed.

(** Calls that were not made did not end in any way. *)
Lemma calls_only_none (sel sel' : forall R, call R -> bool) how (t : trace) :
  (forall R (c : call R), sel R c = true -> sel' R c = false) ->
  calls_only sel t = true -> some_call sel' how t = false.
Proof.
  intros Hsel. induction t as [|ev t IH]; [reflexivity|].
  cbn [calls_only forallb some_call existsb].
  intros H. apply andb_true_iff in H as [Hev Ht].
  apply orb_false_iff. split; [|now apply IH].
  destruct ev as [l | R c r]; [reflexivity|].
  now rewrite (Hsel R c Hev).
Qed.

Lemma calls_only_no_params (sel : forall R, call R -> bool) (t : trace) :
  (forall R (c : call R), sel R c = true -> call_convert_params c = []) ->
  calls_only sel t = true -> convert_params t = [].
Proof.
  intros Hsel. induction t as [|ev t IH]; [reflexivity|].
  cbn [calls_only forallb].
  intros H. apply andb_true_iff in H as [Hev Ht].
  change (ev :: t) with ([ev] ++ t). unfold convert_params.
  rewrite on_call_app. fold convert_params. rewrite (IH Ht), app_nil_r.
  destruct ev as [l | R c r]; [reflexivity|].
  cbn. rewrite (Hsel R c Hev). reflexivity.
Qed.

Lemma chat_only_calls (t : trace) :
  chat_only t = true -> calls_only (@is_chat) t = true.
Proof.
  induction t as [|ev t IH]; [reflexivity|].
  cbn [chat_only calls_only forallb].
  intros H. apply andb_true_iff in H as [Hev Ht].
  apply andb_true_iff. split; [|now apply IH].
  destruct ev as [l | R c r]; [reflexivity|].
  destruct c; try discriminate Hev; reflexivity.
Qed.

Lemma ends_in_raise_app sel (pre t : trace) (e : exn) :
  ends_in_raise sel t e -> ends_in_raise sel (pre ++ t) e.
Proof.
  intros (t0 & R & c & -> & Hc).
  exists (pre ++ t0), R, c. now rewrite app_assoc.
Qed.

End MoreTraceFacts.

(** ** More about the methods *)

(** Find the prefix before the last one or two events of a concrete trace. *)
Ltac split_trace :=
  first
    [ eexists [], _, _; split; reflexivity
    | eexists [_], _, _; split; reflexivity
    | eexists [_; _], _, _; split; reflexivity
    | eexists [_; _; _], _, _; split; reflexivity
    | eexists [_; _; _; _], _, _; split; reflexivity
    | eexists [_; _; _; _; _], _, _; split; reflexivity
    | eexists [_; _; _; _; _; _], _, _; split; reflexivity
    | eexists [_; _; _; _; _; _; _], _, _; split; reflexivity ].

Section MoreMethods.

Variable sv : services.
Variable self : VoiceAI.

(** What [listen] returns is what the recognizer answered, and it says so. *)
Lemma listen_transcript (h : trace) (text : string) :
  fst (listen sv self h) = Ok (Some text) ->
  exists pre a,
    snd (listen sv self h)
    = pre ++ [Called (RecognizeGoogle a) (Ok text);
              Print ("You said: " ++ text)].
Proof.
  open_py. repeat case_call sv; close_case.
  eexists [_; _; _; _], _. reflexivity.
Qed.

(** [get_ai_response]: only the chat session is called; an interrupt of the
    call leaves the method; what it returns is trimmed. *)
Lemma get_ai_response_more (user_input : string) (h : trace) :
  let r := fst (get_ai_response sv self user_input h) in
  let o := snd (get_ai_response sv self user_input h) in
  calls_only (@is_chat) o = true
  /\ (reply_interrupted o = true ->
      r = Raise KeyboardInterrupt
      /\ ends_in_raise (@is_reply_call) o KeyboardInterrupt)
  /\ (returned r = true -> reply_interrupted o = false)
  /\ (forall reply, r = Ok reply -> PyStr.strip reply = reply).
Proof.
  unfold ends_in_raise.
  open_py. repeat case_call sv; close_case;
    try apply MoreFacts.strip_idempotent; try split_trace.
Qed.

(** [speak]: only synthesizers are called; the request to the primary one
    carries the voice of [self] and the fixed format; the fallback is asked
    only after a failure of the primary path, and for the same text; an
    interrupt of a call leaves the method. *)
Lemma speak_more (text : string) (h : trace) :
  let r := fst (speak sv self text h) in
  let o := snd (speak sv self text h) in
  calls_only (@is_reply_call) o = true
  /\ convert_params o
     = [(elevenlabs_voice_id self, "0", "mp3_44100_128",
         "eleven_multilingual_v2")]
  /\ (fallback_requests o = []
      \/ (fallback_requests o = [text] /\ primary_failed o = true))
  /\ (reply_interrupted o = true ->
      r = Raise KeyboardInterrupt
      /\ ends_in_raise (@is_reply_call) o KeyboardInterrupt)
  /\ (returned r = true -> reply_interrupted o = false).
Proof.
  unfold ends_in_raise.
  open_py. repeat case_call sv; close_case;
    try (left; reflexivity); try (right; split; reflexivity);
    try split_trace.
Qed.

(** X1.  When the [try] block of [listen] raises [e], [listen] adds to what
    was printed the diagnostic of the first matching [except] clause:
    nothing for a timeout, the "could not understand" line for
    unintelligible audio, "Listening error: " and the error for any other
    [Exception]; it then returns [None].  An exception that is no
    [Exception] (an interrupt) is let through, with nothing printed. *)
Theorem listen_failure_message (h : trace) (e : exn) :
  fst (listen_try sv self h) = Raise e ->
  printed (snd (listen sv self h))
  = printed (snd (listen_try sv self h)) ++ listen_diagnostic e
  /\ fst (listen sv self h) = (if is_Exception e then Ok None else Raise e).
Proof.
  unfold listen, try_except.
  destruct (listen_try sv self h) as [[v|e'] o]; [discriminate|].
  cbn [fst snd]. intros He. injection He as ->.
  destruct e; cbn; rewrite ?printed_app, ?app_nil_r; split; reflexivity.
Qed.

(** X2.  When [listen] returns a text, that text is the recognizer's answer,
    unchanged: the last two events of [listen] are the call of
    [recognize_google] that returned it and the line "You said: " followed
    by it. *)
Theorem listen_returns_transcript (h : trace) (text : string) :
  fst (listen sv self h) = Ok (Some text) ->
  exists pre a,
    snd (listen sv self h)
    = pre ++ [Called (RecognizeGoogle a) (Ok text);
              Print ("You said: " ++ text)]
    /\ capture_only pre = true.
Proof.
  intros Hl. destruct (listen_transcript h text Hl) as (pre & a & Hpre).
  exists pre, a. split; [exact Hpre|].
  pose proof (listen_spec sv self h) as (Hcap & _).
  rewrite Hpre in Hcap. unfold capture_only in *.
  rewrite forallb_app in Hcap. now apply andb_true_iff in Hcap as [Hcap _].
Qed.

(** X3.  Whatever [get_ai_response] returns is trimmed: stripping it again
    changes nothing.  (It is the chat session's answer stripped, or the
    apology.) *)
Theorem reply_is_trimmed (user_input : string) (h : trace) (reply : string) :
  fst (get_ai_response sv self user_input h) = Ok reply ->
  PyStr.strip reply = reply.
Proof.
  intros Hr. now apply (get_ai_response_more user_input h).
Qed.

End MoreMethods.

(** ** More about a turn *)

(** Lay [speak] out with both of its specifications. *)
Ltac speak_cases_more sv self :=
  match goal with
  | |- context [speak sv self ?t ?h] =>
      let Hm := fresh "Hmore" in
      pose proof (speak_more sv self t h) as Hm;
      cbv zeta in Hm;
      destruct Hm as (?Hm1 & ?Hm2 & ?Hm3 & ?Hm4 & ?Hm5)
  end;
  speak_cases sv self.

(** Lay [get_ai_response] out with both of its specifications. *)
Ltac chat_cases_more sv self :=
  match goal with
  | |- context [get_ai_response sv self ?t ?h] =>
      let Hm := fresh "Hmore" in
      pose proof (get_ai_response_more sv self t h) as Hm;
      cbv zeta in Hm;
      destruct Hm as (?Hk1 & ?Hk2 & ?Hk3 & ?Hk4)
  end;
  chat_cases sv self.

Section MoreTurn.

Variable sv : services.
Variable self : VoiceAI.

(** A turn that ends in [Exit] heard an exit phrase, asked the synthesizer
    for the farewell and nothing else, sent nothing to the chat session, and
    printed "Session ended." last. *)
Lemma runTurn_exit_inv (h : trace) :
  fst (runTurn sv self h) = Ok Exit ->
  (exists text,
      fst (listen sv self h) = Ok (Some text)
      /\ In (PyStr.strip (PyStr.lower text)) exit_phrases)
  /\ prompts (snd (runTurn sv self h)) = []
  /\ synthesis_requests (snd (runTurn sv self h)) = [farewell]
  /\ synthesis_completed (snd (runTurn sv self h)) = true
  /\ last_printed (snd (runTurn sv self h)) = "Session ended.".
Proof.
  turn_cases sv self h; try discriminate.
  destruct (PyStr.is_empty text); [discriminate|].
  destruct (PyStr.mem _ exit_phrases) eqn:Hmem.
  - speak_cases sv self; [|discriminate]. intros _.
    split; [exists text; split;
            [reflexivity | now apply PyStrFacts.mem_In]|].
    change (o ++ Print farewell :: os ++ [Print "Session ended."])
      with (o ++ (Print farewell :: os) ++ [Print "Session ended."]).
    rewrite app_assoc, last_printed_snoc.
    trace_norm. repeat split.
  - chat_cases sv self; [|discriminate].
    speak_cases sv self; discriminate.
Qed.

(** X6.  Whatever the services do, a turn sends at most one prompt to the
    chat session and makes at most one request to the primary synthesizer;
    the fallback synthesizer is asked only in a turn where the primary path
    failed, and then for the same text; and every text handed to a
    synthesizer is trimmed. *)
Theorem turn_speaks_at_most_once (h : trace) :
  (length (prompts (snd (runTurn sv self h))) <= 1)%nat
  /\ (length (synthesis_requests (snd (runTurn sv self h))) <= 1)%nat
  /\ (fallback_requests (snd (runTurn sv self h)) = []
      \/ (fallback_requests (snd (runTurn sv self h))
          = synthesis_requests (snd (runTurn sv self h))
          /\ primary_failed (snd (runTurn sv self h)) = true))
  /\ (forall t, In t (synthesis_requests (snd (runTurn sv self h))) ->
                PyStr.strip t = t).
Proof.
  turn_cases sv self h;
    [| trace_norm; cbn; repeat split; auto; contradiction
     | trace_norm; cbn; repeat split; auto; contradiction ].
  destruct (PyStr.is_empty text);
    [trace_norm; cbn; repeat split; auto; contradiction|].
  destruct (PyStr.mem _ exit_phrases).
  - speak_cases_more sv self; trace_norm; cbn [length];
      (split; [lia|]); (split; [lia|]);
      (split; [destruct Hm3 as [Hf | [Hf Hpf]]; rewrite Hf;
               [now left | right; split; [reflexivity | assumption]]|]);
      intros t [<- | []]; reflexivity.
  - chat_cases_more sv self.
    + speak_cases_more sv self; trace_norm; cbn [length];
        (split; [lia|]); (split; [lia|]);
        (split; [destruct Hm3 as [Hf | [Hf Hpf]]; rewrite Hf;
                 [now left | right; split; [reflexivity | assumption]]|]);
        intros t [<- | []]; now apply Hk4.
    + trace_norm; cbn [length]. repeat split; auto; contradiction.
Qed.

(** X4.  A turn is [Idle] exactly when [listen] returned [None] or the empty
    string, and then the turn did nothing beyond [listen]. *)
Theorem idle_iff_nothing_heard (h : trace) :
  (fst (runTurn sv self h) = Ok Idle
   <-> fst (listen sv self h) = Ok None
       \/ fst (listen sv self h) = Ok (Some ""))
  /\ (fst (runTurn sv self h) = Ok Idle ->
      snd (runTurn sv self h) = snd (listen sv self h)).
Proof.
  rewrite !runTurn_eq.
  destruct (listen sv self h) as [[[text|]|e] o]; cbn [fst snd].
  - destruct text as [|c text]; cbn [PyStr.is_empty].
    + split; [split; auto | reflexivity].
    + assert (Hne : Ok (Some (String c text)) <> Ok (Some "")) by congruence.
      assert (Hne' : @Ok (option string) (Some (String c text)) <> Ok None)
        by congruence.
      destruct (PyStr.mem _ exit_phrases).
      * destruct (speak sv self farewell _) as [[u|e] os]; cbn [fst snd];
          (split; [split; [discriminate | intros [H | H]; contradiction]
                  | discriminate]).
      * destruct (get_ai_response sv self _ _) as [[reply|e] og];
          [destruct (speak sv self reply _) as [[u|e] os]|]; cbn [fst snd];
          (split; [split; [discriminate | intros [H | H]; contradiction]
                  | discriminate]).
  - split; [split; auto | reflexivity].
  - split; [split; [discriminate | intros [H | H]; discriminate]
           | discriminate].
Qed.

(** X5.  A turn ends in [Exit] only if the captured utterance, lower-cased
    and stripped, is one of the four exit phrases; such a turn sent nothing
    to the chat session, asked the synthesizer for the farewell and nothing
    else, had the synthesis run to its end, and printed "Session ended."
    last. *)
Theorem exit_only_on_exit_phrase (h : trace) :
  fst (runTurn sv self h) = Ok Exit ->
  (exists text,
      fst (listen sv self h) = Ok (Some text)
      /\ In (PyStr.strip (PyStr.lower text)) exit_phrases)
  /\ prompts (snd (runTurn sv self h)) = []
  /\ synthesis_requests (snd (runTurn sv self h)) = [farewell]
  /\ synthesis_completed (snd (runTurn sv self h)) = true
  /\ last_printed (snd (runTurn sv self h)) = "Session ended.".
Proof. apply runTurn_exit_inv. Qed.

End MoreTurn.

(** ** More about the loop *)

Section MoreLoop.

Variable sv : services.
Variable self : VoiceAI.

Lemma last_app_nonempty {X} (a b : list X) (d : X) :
  b <> [] -> last (a ++ b) d = last b d.
Proof.
  intros Hb. induction a as [|x a IH]; [reflexivity|].
  cbn [app last]. destruct (a ++ b) eqn:E; [|exact IH].
  apply app_eq_nil in E as [_ E]. contradiction.
Qed.

Lemma last_printed_app (a b : trace) (l : string) :
  l <> "" -> last_printed b = l -> last_printed (a ++ b) = l.
Proof.
  unfold last_printed. intros Hl Hb. rewrite printed_app.
  rewrite last_app_nonempty; [exact Hb|].
  intros E. rewrite E in Hb. cbn in Hb. congruence.
Qed.

(** What a turn calls, and how an interrupt of the chat session or of a
    synthesizer ends it. *)
Lemma runTurn_more (h : trace) :
  calls_only (@is_turn_call) (snd (runTurn sv self h)) = true
  /\ Forall (eq (speak_params self)) (convert_params (snd (runTurn sv self h)))
  /\ (reply_interrupted (snd (runTurn sv self h)) = true ->
      fst (runTurn sv self h) = Raise KeyboardInterrupt
      /\ ends_in_raise (@is_reply_call) (snd (runTurn sv self h))
           KeyboardInterrupt)
  /\ (returned (fst (runTurn sv self h)) = true ->
      reply_interrupted (snd (runTurn sv self h)) = false).
Proof.
  pose proof (listen_spec sv self h) as (Hcap & _).
  assert (Hcalls : calls_only (@is_turn_call) (snd (listen sv self h)) = true).
  { revert Hcap. apply calls_only_weaken.
    intros R c Hc. unfold is_turn_call. now rewrite Hc. }
  assert (Hint : reply_interrupted (snd (listen sv self h)) = false).
  { revert Hcap. apply calls_only_none. intros R c. now destruct c. }
  assert (Hpar : convert_params (snd (listen sv self h)) = []).
  { revert Hcap. apply calls_only_no_params. intros R c. now destruct c. }
  assert (Hweak : forall t, calls_only (@is_reply_call) t = true ->
                            calls_only (@is_turn_call) t = true).
  { intros t. apply calls_only_weaken.
    intros R c Hc. unfold is_turn_call. rewrite Hc. apply orb_true_r. }
  assert (Hchat : forall t, calls_only (@is_chat) t = true ->
                            calls_only (@is_turn_call) t = true
                            /\ convert_params t = []).
  { intros t Ht. split.
    - revert Ht. apply calls_only_weaken.
      intros R c Hc. unfold is_turn_call, is_reply_call. rewrite Hc.
      apply orb_true_r.
    - revert Ht. apply calls_only_no_params. intros R c. now destruct c. }
  unfold reply_interrupted, convert_params in *.
  rewrite !runTurn_eq.
  destruct (listen sv self h) as [[[text|]|e] o]; cbn [fst snd] in *;
    [| rewrite Hpar; repeat split; auto; congruence
     | rewrite Hpar; repeat split; auto; congruence ].
  destruct (PyStr.is_empty text);
    [cbn [fst snd]; rewrite Hpar; repeat split; auto; congruence|].
  destruct (PyStr.mem _ exit_phrases).
  - pose proof (speak_more sv self farewell ((h ++ o) ++ [Print farewell]))
      as Hm.
    cbv zeta in Hm. unfold reply_interrupted, convert_params in Hm.
    destruct Hm as (Hm1 & Hm2 & _ & Hm4 & Hm5).
    destruct (speak sv self farewell _) as [[u|e] os];
      cbn [fst snd returned] in *;
      change (Print farewell :: ?x) with ([Print farewell] ++ x);
      rewrite ?calls_only_app, ?on_call_app, ?some_call_app, Hcalls, Hpar,
        Hint, (Hweak os Hm1), Hm2; cbn [app orb andb calls_only forallb
                                        on_call flat_map some_call existsb];
      rewrite ?orb_false_r;
      (split; [reflexivity|]); (split; [repeat constructor|]).
    + split; [intros Hi; rewrite (Hm5 eq_refl) in Hi; discriminate|].
      intros _. now apply Hm5.
    + split; [|discriminate].
      intros Hi. destruct (Hm4 Hi) as (He & Hend). injection He as ->.
      split; [reflexivity|].
      change (o ++ Print farewell :: os) with (o ++ [Print farewell] ++ os).
      rewrite app_assoc. now apply ends_in_raise_app.
  - pose proof (get_ai_response_more sv self text (h ++ o)) as Hk.
    cbv zeta in Hk. unfold reply_interrupted in Hk.
    destruct Hk as (Hk1 & Hk2 & Hk3 & _).
    destruct (Hchat _ Hk1) as (Hkc & Hkp).
    destruct (get_ai_response sv self text (h ++ o)) as [[reply|e] og];
      cbn [fst snd returned] in *.
    + pose proof (speak_more sv self reply ((h ++ o) ++ og)) as Hm.
      cbv zeta in Hm. unfold reply_interrupted, convert_params in Hm.
      destruct Hm as (Hm1 & Hm2 & _ & Hm4 & Hm5).
      unfold convert_params in Hkp.
      destruct (speak sv self reply _) as [[u|e] os];
        cbn [fst snd returned] in *;
        rewrite ?calls_only_app, ?on_call_app, ?some_call_app, Hcalls, Hpar,
          Hint, Hkc, Hkp, (Hk3 eq_refl), (Hweak os Hm1), Hm2;
        cbn [app orb andb];
        (split; [reflexivity|]); (split; [repeat constructor|]).
      * split; [intros Hi; rewrite (Hm5 eq_refl) in Hi; discriminate|].
        intros _. now apply Hm5.
      * split; [|discriminate].
        intros Hi. destruct (Hm4 Hi) as (He & Hend). injection He as ->.
        split; [reflexivity|].
        rewrite app_assoc. now apply ends_in_raise_app.
    + unfold convert_params in Hkp.
      rewrite ?calls_only_app, ?on_call_app, ?some_call_app, Hcalls, Hpar,
        Hint, Hkc, Hkp; cbn [app orb andb].
      split; [reflexivity|]. split; [constructor|].
      split; [|discriminate].
      intros Hi. destruct (Hk2 Hi) as (He & Hend). injection He as ->.
      split; [reflexivity|]. now apply ends_in_raise_app.
Qed.

(** A property of traces that holds of nothing, of every turn and of the
    concatenation of traces it holds of, holds of the loop. *)
Lemma while_True_trace (P : trace -> Prop) :
  P [] -> (forall a b, P a -> P b -> P (a ++ b)) ->
  (forall h, P (snd (runTurn sv self h))) ->
  forall fuel h, P (snd (while_True fuel (runTurn sv self) h)).
Proof.
  intros Hnil Happ Hturn fuel.
  induction fuel as [|n IH]; intros h; [exact Hnil|].
  rewrite while_True_eq. specialize (Hturn h).
  destruct (runTurn sv self h) as [[st|e] o]; cbn [fst snd] in *;
    [|exact Hturn].
  specialize (IH (h ++ o)).
  destruct (while_True n (runTurn sv self) (h ++ o)) as [r o2].
  destruct st; cbn [snd] in *; auto.
Qed.

Lemma while_True_calls (fuel : nat) (h : trace) :
  calls_only (@is_turn_call) (snd (while_True fuel (runTurn sv self) h))
  = true.
Proof.
  apply (while_True_trace (fun t => calls_only (@is_turn_call) t = true)).
  - reflexivity.
  - intros a b Ha Hb. now rewrite calls_only_app, Ha, Hb.
  - intros h'. apply runTurn_more.
Qed.

Lemma while_True_params (fuel : nat) (h : trace) :
  Forall (eq (speak_params self)) (convert_params (snd (while_True fuel (runTurn sv self) h))).
Proof.
  apply (while_True_trace (fun t => Forall (eq (speak_params self)) (convert_params t))).
  - constructor.
  - intros a b Ha Hb. unfold convert_params. rewrite on_call_app.
    apply Forall_app. now split.
  - intros h'. apply runTurn_more.
Qed.

(** In the loop, an interrupt of the chat session or of a synthesizer is the
    last thing that happens, and the loop raises it. *)
Lemma while_True_interrupt (fuel : nat) (h : trace) :
  reply_interrupted (snd (while_True fuel (runTurn sv self) h)) = true ->
  fst (while_True fuel (runTurn sv self) h) = Raise KeyboardInterrupt
  /\ ends_in_raise (@is_reply_call)
       (snd (while_True fuel (runTurn sv self) h)) KeyboardInterrupt.
Proof.
  revert h. induction fuel as [|n IH]; intros h; [discriminate|].
  rewrite while_True_eq.
  destruct (runTurn_more h) as (_ & _ & Hint & Hret).
  destruct (runTurn sv self h) as [[st|e] o]; cbn [fst snd returned] in *.
  - specialize (Hret eq_refl).
    assert (Hnext :
             reply_interrupted
               (snd (let (r, o2) := while_True n (runTurn sv self) (h ++ o)
                     in (r, o ++ o2))) = true ->
             fst (let (r, o2) := while_True n (runTurn sv self) (h ++ o)
                  in (r, o ++ o2)) = Raise KeyboardInterrupt
             /\ ends_in_raise (@is_reply_call)
                  (snd (let (r, o2) :=
                          while_True n (runTurn sv self) (h ++ o)
                        in (r, o ++ o2))) KeyboardInterrupt).
    { specialize (IH (h ++ o)).
      destruct (while_True n (runTurn sv self) (h ++ o)) as [r o2].
      cbn [fst snd] in *. unfold reply_interrupted in *.
      rewrite some_call_app, Hret. cbn [orb].
      intros H2. destruct (IH H2) as (He & Hend).
      split; [assumption | now apply ends_in_raise_app]. }
    destruct st; [exact Hnext | cbn [snd]; congruence | exact Hnext].
  - intros H. destruct (Hint H) as (He & Hend).
    injection He as ->. now split.
Qed.

(** The loop returns only after a turn that ended in [Exit]. *)
Lemma while_True_returns (fuel : nat) (h : trace) :
  fst (while_True fuel (runTurn sv self) h) = Ok (Some tt) ->
  last_printed (snd (while_True fuel (runTurn sv self) h)) = "Session ended."
  /\ In farewell
       (synthesis_requests (snd (while_True fuel (runTurn sv self) h)))
  /\ synthesis_completed (snd (while_True fuel (runTurn sv self) h)) = true.
Proof.
  revert h. induction fuel as [|n IH]; intros h; [discriminate|].
  rewrite while_True_eq.
  pose proof (runTurn_exit_inv sv self h) as Hexit.
  destruct (runTurn sv self h) as [[st|e] o]; cbn [fst snd] in *;
    [|discriminate].
  assert (Hnext :
           fst (let (r, o2) := while_True n (runTurn sv self) (h ++ o)
                in (r, o ++ o2)) = Ok (Some tt) ->
           last_printed
             (snd (let (r, o2) := while_True n (runTurn sv self) (h ++ o)
                   in (r, o ++ o2))) = "Session ended."
           /\ In farewell
                (synthesis_requests
                   (snd (let (r, o2) :=
                           while_True n (runTurn sv self) (h ++ o)
                         in (r, o ++ o2))))
           /\ synthesis_completed
                (snd (let (r, o2) := while_True n (runTurn sv self) (h ++ o)
                      in (r, o ++ o2))) = true).
  { specialize (IH (h ++ o)).
    destruct (while_True n (runTurn sv self) (h ++ o)) as [r o2].
    cbn [fst snd] in *. intros Hr.
    destruct (IH Hr) as (H1 & H2 & H3).
    split; [apply last_printed_app; [discriminate | exact H1]|].
    rewrite synthesis_requests_app, synthesis_completed_app, H3.
    split; [apply in_or_app; now right | apply orb_true_r]. }
  destruct st; [exact Hnext | | exact Hnext].
  intros _. destruct (Hexit eq_refl) as (_ & _ & Hs & Hc & Hl).
  cbn [snd]. rewrite Hs. repeat split; try assumption. now left.
Qed.

(** While nothing is understood the loop goes on, and only listens. *)
Lemma while_True_silent (fuel : nat) :
  (forall h, exists e,
      fst (listen_try sv self h) = Raise e /\ is_Exception e = true) ->
  forall h,
    fst (while_True fuel (runTurn sv self) h) = Ok None
    /\ no_dialogue_no_synthesis (snd (while_True fuel (runTurn sv self) h)).
Proof.
  intros Hdeaf. induction fuel as [|n IH]; intros h.
  - split; [reflexivity | repeat split].
  - rewrite while_True_eq.
    destruct (Hdeaf h) as (e & He & Hexc).
    pose proof (listen_spec sv self h) as (_ & _ & Hnone).
    specialize (Hnone e He Hexc).
    pose proof (listen_quiet sv self h) as Hq.
    rewrite runTurn_eq.
    destruct (listen sv self h) as [[[text|]|e'] o]; cbn [fst snd] in *;
      try discriminate.
    specialize (IH (h ++ o)).
    destruct (while_True n (runTurn sv self) (h ++ o)) as [r o2].
    cbn [fst snd] in *. destruct IH as (Hr & Hq2).
    split; [exact Hr|].
    unfold no_dialogue_no_synthesis in *.
    destruct Hq as (Q1 & Q2 & Q3 & Q4 & Q5 & Q6 & Q7 & Q8).
    destruct Hq2 as (R1 & R2 & R3 & R4 & R5 & R6 & R7 & R8).
    autorewrite with trace.
    rewrite Q1, Q2, Q3, Q4, Q5, Q6, Q7, Q8, R1, R2, R3, R4, R5, R6, R7, R8.
    repeat split.
Qed.

End MoreLoop.


(** ** More about the process *)

Section MoreProcess.

Variable sv : services.

(** [__init__], call by call: what it leaves in the trace, what it returns,
    and how a failure of one of its calls ends it. *)
Lemma VoiceAI_init_spec (k1 k2 v : pyval) (h : trace) :
  let r := fst (VoiceAI_init sv k1 k2 v h) in
  let o := snd (VoiceAI_init sv k1 k2 v h) in
  (prompts o = [] /\ synthesis_requests o = [] /\ fallback_requests o = []
   /\ convert_params o = [] /\ reply_interrupted o = false
   /\ listened o = false)
  /\ (exists r0 rest, o = Called (GenaiConfigure k1) r0 :: rest)
  /\ (forall self, r = Ok self ->
      elevenlabs_voice_id self = v
      /\ config_failed o = false /\ startup_failed o = false)
  /\ (config_failed o = true ->
      r = Raise (SystemExit 1)
      /\ (exists e,
             last_printed o = ("Error configuring APIs: " ++ str e)%string
             /\ is_Exception e = true)
      /\ startup_failed o = false
      /\ some_call (@is_capture) (@any_result) o = false)
  /\ (startup_failed o = true ->
      (exists e, r = Raise e /\ is_Exception e = true
                 /\ ends_in_raise (@is_startup) o e)
      /\ config_failed o = false
      /\ some_call (@is_capture) (@any_result) o = false).
Proof.
  unfold ends_in_raise.
  open_py. repeat case_call sv; close_case;
    try (eexists _, _; reflexivity);
    try (match goal with
         | |- exists e, last_printed _ = _ /\ _ =>
             match goal with
             | |- context [str ?x] => exists x; split; reflexivity
             end
         | |- exists e, Raise ?x = Raise e /\ _ =>
             exists x; split; [reflexivity|]; split; [reflexivity|];
             split_trace
         end).
Qed.

(** [run] is the banner, then the loop. *)
Lemma run_eq (fuel : nat) (self : VoiceAI) (h : trace) :
  exists hh,
    run sv fuel self h
    = (fst (while_True fuel (runTurn sv self) hh),
       banner ++ snd (while_True fuel (runTurn sv self) hh)).
Proof.
  unfold run, bind, print. cbv iota beta.
  match goal with
  | |- context [while_True fuel (runTurn sv self) ?hh] => exists hh
  end.
  destruct (while_True fuel (runTurn sv self) _) as [r o].
  reflexivity.
Qed.

(** [main], with its three stages laid out. *)
Lemma main_eq (environ : string -> pyval) (fuel : nat) (h : trace) :
  main sv environ fuel h =
  if not_ (environ "GEMINI_API_KEY") || not_ (environ "ELEVENLABS_API_KEY")
     || not_ (environ "ELEVENLABS_VOICE_ID")
  then (Raise (SystemExit 1), missing_lines)
  else
    match VoiceAI_init sv (environ "GEMINI_API_KEY")
            (environ "ELEVENLABS_API_KEY") (environ "ELEVENLABS_VOICE_ID")
            (h ++ []) with
    | (Raise e, oi) => main_except e oi
    | (Ok self, oi) =>
        match run sv fuel self ((h ++ []) ++ oi) with
        | (Ok r, orun) => (Ok r, oi ++ orun)
        | (Raise e, orun) => main_except e (oi ++ orun)
        end
    end.
Proof.
  unfold main.
  destruct (not_ (environ "GEMINI_API_KEY")
            || not_ (environ "ELEVENLABS_API_KEY")
            || not_ (environ "ELEVENLABS_VOICE_ID")); [reflexivity|].
  unfold bind at 1. unfold ret at 1. cbv iota beta.
  unfold try_except, bind at 1.
  destruct (VoiceAI_init sv _ _ _ (h ++ [])) as [[self|e] oi].
  - destruct (run sv fuel self ((h ++ []) ++ oi)) as [[r|e] orun];
      [reflexivity|].
    unfold main_except. destruct e; reflexivity.
  - unfold main_except. destruct e; reflexivity.
Qed.

(** The ways through [main]: the values are missing; or [__init__] raises
    and the [except] clauses decide; or the loop runs, and returns or raises
    into the [except] clauses. *)
Lemma main_cases (environ : string -> pyval) (fuel : nat) (h : trace) :
  if not_ (environ "GEMINI_API_KEY") || not_ (environ "ELEVENLABS_API_KEY")
     || not_ (environ "ELEVENLABS_VOICE_ID")
  then main sv environ fuel h = (Raise (SystemExit 1), missing_lines)
  else
    exists h0,
      match VoiceAI_init sv (environ "GEMINI_API_KEY")
              (environ "ELEVENLABS_API_KEY") (environ "ELEVENLABS_VOICE_ID")
              h0 with
      | (Raise e, oi) => main sv environ fuel h = main_except e oi
      | (Ok self, oi) =>
          exists hh,
            match while_True fuel (runTurn sv self) hh with
            | (Ok r, ow) =>
                main sv environ fuel h = (Ok r, oi ++ banner ++ ow)
            | (Raise e, ow) =>
                main sv environ fuel h = main_except e (oi ++ banner ++ ow)
            end
      end.
Proof.
  rewrite main_eq.
  destruct (not_ (environ "GEMINI_API_KEY")
            || not_ (environ "ELEVENLABS_API_KEY")
            || not_ (environ "ELEVENLABS_VOICE_ID")); [reflexivity|].
  exists (h ++ []).
  destruct (VoiceAI_init sv _ _ _ (h ++ [])) as [[self|e] oi];
    [|reflexivity].
  destruct (run_eq fuel self ((h ++ []) ++ oi)) as (hh & ->).
  exists hh.
  destruct (while_True fuel (runTurn sv self) hh) as [[r|e] ow];
    reflexivity.
Qed.

(** The [except] clauses of [main] add a printed line at most. *)
Lemma main_except_some_call sel how (e : exn) (o : trace) :
  some_call sel how (snd (main_except e o)) = some_call sel how o.
Proof.
  unfold main_except.
  destruct (is_KeyboardInterrupt e); [|destruct (is_Exception e)];
    cbn [snd]; rewrite ?some_call_app; cbn; now rewrite ?orb_false_r.
Qed.

Lemma main_except_on_call {X} (f : forall R, call R -> result R -> list X)
  (e : exn) (o : trace) :
  on_call f (snd (main_except e o)) = on_call f o.
Proof.
  unfold main_except.
  destruct (is_KeyboardInterrupt e); [|destruct (is_Exception e)];
    cbn [snd]; rewrite ?on_call_app; cbn; now rewrite ?app_nil_r.
Qed.

(** Only [SystemExit] leaves the [except] clauses of [main]. *)
Lemma main_except_raises (e e' : exn) (o : trace) :
  fst (main_except e o) = Raise e' -> exists code, e' = SystemExit code.
Proof.
  unfold main_except. destruct e; cbn; intros H; try discriminate.
  injection H as <-. now exists code.
Qed.

(** The calls of a turn are neither configuration nor startup calls. *)
Lemma turn_calls_not_startup (t : trace) :
  calls_only (@is_turn_call) t = true ->
  config_failed t = false /\ startup_failed t = false.
Proof.
  intros Ht. split; revert Ht; apply calls_only_none;
    intros R c; now destruct c.
Qed.

Lemma main_except_hd (e : exn) (o rest : trace) (x : event) :
  o = x :: rest -> hd_error (snd (main_except e o)) = Some x.
Proof.
  intros ->. unfold main_except.
  destruct (is_KeyboardInterrupt e); [|destruct (is_Exception e)];
    reflexivity.
Qed.

Lemma missing_iff (environ : string -> pyval) :
  not_ (environ "GEMINI_API_KEY") || not_ (environ "ELEVENLABS_API_KEY")
  || not_ (environ "ELEVENLABS_VOICE_ID") = true
  <-> exists k, In k required_keys /\ not_ (environ k) = true.
Proof.
  split.
  - intros H. apply orb_true_iff in H as [H | H];
      [apply orb_true_iff in H as [H | H]|].
    + exists "GEMINI_API_KEY". split; [cbn; tauto | exact H].
    + exists "ELEVENLABS_API_KEY". split; [cbn; tauto | exact H].
    + exists "ELEVENLABS_VOICE_ID". split; [cbn; tauto | exact H].
  - intros (k & Hin & Hk). cbn in Hin.
    decompose [or] Hin; try contradiction; subst k; rewrite Hk;
      rewrite ?orb_true_r; reflexivity.
Qed.

(** X7.  [run] returns only after a turn that ended in [Exit]: when it
    returns, the last line printed is "Session ended.", the farewell was
    handed to the synthesizer, and a synthesis ran to its end. *)
Theorem run_returns_after_goodbye (fuel : nat) (self : VoiceAI) (h : trace) :
  fst (run sv fuel self h) = Ok (Some tt) ->
  last_printed (snd (run sv fuel self h)) = "Session ended."
  /\ In farewell (synthesis_requests (snd (run sv fuel self h)))
  /\ synthesis_completed (snd (run sv fuel self h)) = true.
Proof.
  destruct (run_eq fuel self h) as (hh & ->). cbn [fst snd]. intros Hr.
  destruct (while_True_returns sv self fuel hh Hr) as (H1 & H2 & H3).
  split; [apply last_printed_app; [discriminate | exact H1]|].
  rewrite synthesis_requests_app, synthesis_completed_app, H3.
  split; [apply in_or_app; now right | apply orb_true_r].
Qed.

(** X8.  While the capture fails at every turn (the [try] block of [listen]
    raises an [Exception] whatever happened before), [run] does not end,
    however many turns are followed, and calls neither the chat session nor
    a synthesizer. *)
Theorem run_silent_room (fuel : nat) (self : VoiceAI) (h : trace) :
  (forall h', exists e,
      fst (listen_try sv self h') = Raise e /\ is_Exception e = true) ->
  fst (run sv fuel self h) = Ok None
  /\ prompts (snd (run sv fuel self h)) = []
  /\ synthesis_requests (snd (run sv fuel self h)) = []
  /\ fallback_requests (snd (run sv fuel self h)) = [].
Proof.
  intros Hdeaf.
  destruct (run_eq fuel self h) as (hh & ->). cbn [fst snd].
  destruct (while_True_silent sv self fuel Hdeaf hh)
    as (Hr & Q1 & Q2 & Q3 & _).
  rewrite prompts_app, synthesis_requests_app, fallback_requests_app,
    Q1, Q2, Q3.
  repeat split; assumption.
Qed.

(** X9.  Nothing but [SystemExit] leaves [main]: an [Exception] or a
    [KeyboardInterrupt] raised anywhere below is caught by one of its two
    [except] clauses, so the process never ends in a traceback. *)
Theorem main_never_traceback (environ : string -> pyval) (fuel : nat)
  (h : trace) :
  (forall e, fst (main sv environ fuel h) = Raise e ->
             exists code, e = SystemExit code)
  /\ (forall e, process (fst (main sv environ fuel h)) <> Some (Traceback e)).
Proof.
  assert (H1 : forall e, fst (main sv environ fuel h) = Raise e ->
                         exists code, e = SystemExit code).
  { pose proof (main_cases environ fuel h) as Hm.
    destruct (not_ (environ "GEMINI_API_KEY")
              || not_ (environ "ELEVENLABS_API_KEY")
              || not_ (environ "ELEVENLABS_VOICE_ID")).
    - rewrite Hm. cbn. intros e He. injection He as <-. now exists 1%Z.
    - destruct Hm as (h0 & Hm).
      destruct (VoiceAI_init sv _ _ _ h0) as [[self|e0] oi].
      + destruct Hm as (hh & Hm).
        destruct (while_True fuel (runTurn sv self) hh) as [[r|e0] ow];
          rewrite Hm; [discriminate|].
        intros e. apply main_except_raises.
      + rewrite Hm. intros e. apply main_except_raises. }
  split; [exact H1|].
  intros e. destruct (fst (main sv environ fuel h)) as [[u|]|e0];
    cbn; try discriminate.
  destruct (H1 e0 eq_refl) as (code & ->). discriminate.
Qed.

(** A failure of a configuration call ends [__init__] at once: the failing
    call, then the line that reports its exception, then [sys.exit(1)]. *)
Lemma VoiceAI_init_config_failure (k1 k2 v : pyval) (h : trace) :
  config_failed (snd (VoiceAI_init sv k1 k2 v h)) = true ->
  fst (VoiceAI_init sv k1 k2 v h) = Raise (SystemExit 1)
  /\ exists pre R (c : call R) e,
      snd (VoiceAI_init sv k1 k2 v h)
      = pre ++ [Called c (Raise e);
                Print ("Error configuring APIs: " ++ str e)]
      /\ is_config c = true /\ is_Exception e = true
      /\ calls_only (@is_config) pre = true.
Proof.
  open_py. repeat case_call sv; close_case;
    first [ eexists [], _, _, _; repeat split; reflexivity
          | eexists [_], _, _, _; repeat split; reflexivity ].
Qed.

(** X10.  When [genai.configure] or the construction of the ElevenLabs
    client raises an [Exception] [e], the process ends with exit code 1:
    the failing call is the last call made, only configuration calls came
    before it, and the one line printed after it, the last of the process,
    is "Error configuring APIs: " followed by that same [e]; no microphone
    or recognizer call was made and nothing was sent to the chat session or
    a synthesizer. *)
Theorem config_failure_exit_1 (environ : string -> pyval) (fuel : nat)
  (h : trace) :
  config_failed (snd (main sv environ fuel h)) = true ->
  process (fst (main sv environ fuel h)) = Some (ExitCode 1)
  /\ (exists pre R (c : call R) e,
         snd (main sv environ fuel h)
         = pre ++ [Called c (Raise e);
                   Print ("Error configuring APIs: " ++ str e)]
         /\ is_config c = true /\ is_Exception e = true
         /\ calls_only (@is_config) pre = true)
  /\ some_call (@is_capture) (@any_result) (snd (main sv environ fuel h))
     = false
  /\ prompts (snd (main sv environ fuel h)) = []
  /\ synthesis_requests (snd (main sv environ fuel h)) = [].
Proof.
  pose proof (main_cases environ fuel h) as Hm.
  destruct (not_ (environ "GEMINI_API_KEY")
            || not_ (environ "ELEVENLABS_API_KEY")
            || not_ (environ "ELEVENLABS_VOICE_ID")).
  - rewrite Hm. discriminate.
  - destruct Hm as (h0 & Hm).
    pose proof (VoiceAI_init_spec (environ "GEMINI_API_KEY")
                  (environ "ELEVENLABS_API_KEY")
                  (environ "ELEVENLABS_VOICE_ID") h0) as Hi.
    cbv zeta in Hi.
    destruct Hi as ((Q1 & Q2 & _) & _ & Hok & Hcfg & _).
    pose proof (VoiceAI_init_config_failure (environ "GEMINI_API_KEY")
                  (environ "ELEVENLABS_API_KEY")
                  (environ "ELEVENLABS_VOICE_ID") h0) as Hfail.
    destruct (VoiceAI_init sv _ _ _ h0) as [[self|e0] oi];
      cbn [fst snd] in *.
    + destruct Hm as (hh & Hm).
      pose proof (while_True_calls sv self fuel hh) as Hcalls.
      apply turn_calls_not_startup in Hcalls as [Hc _].
      destruct (Hok self eq_refl) as (_ & Hci & _).
      destruct (while_True fuel (runTurn sv self) hh) as [[r|e0] ow];
        cbn [fst snd] in *; rewrite Hm; unfold config_failed in *;
        rewrite ?main_except_some_call; cbn [snd];
        rewrite !some_call_app, Hci, Hc; discriminate.
    + rewrite Hm. unfold config_failed in *.
      rewrite main_except_some_call. intros Hf.
      destruct (Hcfg Hf) as (He0 & _ & _ & Hcap).
      destruct (Hfail Hf) as (_ & Htrace).
      injection He0 as ->. cbn [main_except is_KeyboardInterrupt
                                  is_Exception fst snd process].
      unfold prompts, synthesis_requests in *.
      repeat split; assumption.
Qed.

(** X11.  When one of the startup calls of [__init__] (the recognizer, the
    microphone, the fallback engine, the model or the chat session) raises
    an [Exception] [e], [main] catches it: the last line printed is
    "Unexpected error: " followed by [e], the process ends with exit code 0,
    that call is the last call made, and no microphone or recognizer call
    was made: no turn ran. *)
Theorem startup_failure_reported (environ : string -> pyval) (fuel : nat)
  (h : trace) :
  startup_failed (snd (main sv environ fuel h)) = true ->
  fst (main sv environ fuel h) = Ok (Some tt)
  /\ process (fst (main sv environ fuel h)) = Some (ExitCode 0)
  /\ (exists pre R (c : call R) e,
         snd (main sv environ fuel h)
         = pre ++ [Called c (Raise e); Print ("Unexpected error: " ++ str e)]
         /\ is_startup c = true /\ is_Exception e = true)
  /\ some_call (@is_capture) (@any_result) (snd (main sv environ fuel h))
     = false.
Proof.
  pose proof (main_cases environ fuel h) as Hm.
  destruct (not_ (environ "GEMINI_API_KEY")
            || not_ (environ "ELEVENLABS_API_KEY")
            || not_ (environ "ELEVENLABS_VOICE_ID")).
  - rewrite Hm. discriminate.
  - destruct Hm as (h0 & Hm).
    pose proof (VoiceAI_init_spec (environ "GEMINI_API_KEY")
                  (environ "ELEVENLABS_API_KEY")
                  (environ "ELEVENLABS_VOICE_ID") h0) as Hi.
    cbv zeta in Hi.
    destruct Hi as (_ & _ & Hok & _ & Hst).
    destruct (VoiceAI_init sv _ _ _ h0) as [[self|e0] oi];
      cbn [fst snd] in *.
    + destruct Hm as (hh & Hm).
      pose proof (while_True_calls sv self fuel hh) as Hcalls.
      apply turn_calls_not_startup in Hcalls as [_ Hc].
      destruct (Hok self eq_refl) as (_ & _ & Hsi).
      destruct (while_True fuel (runTurn sv self) hh) as [[r|e0] ow];
        cbn [fst snd] in *; rewrite Hm; unfold startup_failed in *;
        rewrite ?main_except_some_call; cbn [snd];
        rewrite !some_call_app, Hsi, Hc; discriminate.
    + rewrite Hm. unfold startup_failed in *.
      rewrite main_except_some_call. intros Hf.
      destruct (Hst Hf) as ((e & He0 & Hexc & pre & R & c & Hpre & Hc)
                            & _ & Hcap).
      injection He0 as ->. subst oi.
      assert (Hme : main_except e (pre ++ [Called c (Raise e)])
                    = (Ok (Some tt),
                       (pre ++ [Called c (Raise e)])
                       ++ [Print ("Unexpected error: " ++ str e)])).
      { unfold main_except. destruct e; try discriminate Hexc; reflexivity. }
      rewrite Hme. cbn [fst snd process].
      split; [reflexivity|]. split; [reflexivity|].
      split.
      * exists pre, R, c, e. rewrite <- app_assoc. repeat split; assumption.
      * rewrite some_call_app, Hcap. reflexivity.
Qed.

(** X12.  When a call of the chat session or of a synthesizer raises
    [KeyboardInterrupt], no method swallows it: that call is the last call
    of the process, [main] prints "Session interrupted by user." and
    returns, and the process ends with exit code 0. *)
Theorem interrupt_ends_session (environ : string -> pyval) (fuel : nat)
  (h : trace) :
  reply_interrupted (snd (main sv environ fuel h)) = true ->
  fst (main sv environ fuel h) = Ok (Some tt)
  /\ process (fst (main sv environ fuel h)) = Some (ExitCode 0)
  /\ exists pre R (c : call R),
      snd (main sv environ fuel h)
      = pre ++ [Called c (Raise KeyboardInterrupt);
                Print (newline ++ "Session interrupted by user.")]
      /\ is_reply_call c = true.
Proof.
  pose proof (main_cases environ fuel h) as Hm.
  destruct (not_ (environ "GEMINI_API_KEY")
            || not_ (environ "ELEVENLABS_API_KEY")
            || not_ (environ "ELEVENLABS_VOICE_ID")).
  - rewrite Hm. discriminate.
  - destruct Hm as (h0 & Hm).
    pose proof (VoiceAI_init_spec (environ "GEMINI_API_KEY")
                  (environ "ELEVENLABS_API_KEY")
                  (environ "ELEVENLABS_VOICE_ID") h0) as Hi.
    cbv zeta in Hi.
    destruct Hi as ((_ & _ & _ & _ & Qi & _) & _).
    destruct (VoiceAI_init sv _ _ _ h0) as [[self|e0] oi];
      cbn [fst snd] in *.
    + destruct Hm as (hh & Hm).
      pose proof (while_True_interrupt sv self fuel hh) as Hint.
      destruct (while_True fuel (runTurn sv self) hh) as [[r|e0] ow];
        cbn [fst snd] in *; rewrite Hm; unfold reply_interrupted in *;
        rewrite ?main_except_some_call; cbn [snd];
        rewrite !some_call_app, Qi; cbn [banner some_call existsb orb];
        intros Hf; destruct (Hint Hf) as (He0 & pre & R & c & Hpre & Hc);
        [discriminate|].
      injection He0 as ->. subst ow.
      cbn [main_except is_KeyboardInterrupt fst snd process].
      split; [reflexivity|]. split; [reflexivity|].
      exists (oi ++ banner ++ pre), R, c.
      split; [apply snoc_shift | exact Hc].
    + rewrite Hm. unfold reply_interrupted in *.
      rewrite main_except_some_call, Qi. discriminate.
Qed.

(** X13.  Every request [main] makes to the primary synthesizer carries the
    voice identifier read from ELEVENLABS_VOICE_ID and the fixed parameters
    (latency "0", format "mp3_44100_128", model "eleven_multilingual_v2"),
    at every turn. *)
Theorem voice_id_passed_through (environ : string -> pyval) (fuel : nat)
  (h : trace) :
  Forall (eq (environ "ELEVENLABS_VOICE_ID", "0", "mp3_44100_128",
              "eleven_multilingual_v2"))
    (convert_params (snd (main sv environ fuel h))).
Proof.
  pose proof (main_cases environ fuel h) as Hm.
  destruct (not_ (environ "GEMINI_API_KEY")
            || not_ (environ "ELEVENLABS_API_KEY")
            || not_ (environ "ELEVENLABS_VOICE_ID")).
  - rewrite Hm. constructor.
  - destruct Hm as (h0 & Hm).
    pose proof (VoiceAI_init_spec (environ "GEMINI_API_KEY")
                  (environ "ELEVENLABS_API_KEY")
                  (environ "ELEVENLABS_VOICE_ID") h0) as Hi.
    cbv zeta in Hi.
    destruct Hi as ((_ & _ & _ & Qp & _) & _ & Hok & _).
    destruct (VoiceAI_init sv _ _ _ h0) as [[self|e0] oi];
      cbn [fst snd] in *.
    + destruct Hm as (hh & Hm).
      pose proof (while_True_params sv self fuel hh) as Hpar.
      destruct (Hok self eq_refl) as (Hv & _).
      unfold speak_params in Hpar. rewrite Hv in Hpar.
      unfold convert_params in *.
      destruct (while_True fuel (runTurn sv self) hh) as [[r|e0] ow];
        cbn [fst snd] in *; rewrite Hm;
        rewrite ?main_except_on_call; cbn [snd];
        rewrite !on_call_app, Qp; exact Hpar.
    + rewrite Hm. unfold convert_params in *.
      rewrite main_except_on_call, Qp. constructor.
Qed.

(** X14.  The first thing [main] does is print "Missing API keys or voice
    ID. ..." exactly when one of the three required values is absent or
    is the empty string; then it prints the three key lines and nothing
    else happens, and the process ends with exit code 1.  Otherwise the
    first thing it does is call [genai.configure] with the Gemini key. *)
Theorem missing_message_iff (environ : string -> pyval) (fuel : nat)
  (h : trace) :
  (hd_error (snd (main sv environ fuel h))
   = Some (Print "Missing API keys or voice ID. Please check your .env file:")
   <-> exists k, In k required_keys /\ not_ (environ k) = true)
  /\ ((exists k, In k required_keys /\ not_ (environ k) = true) ->
      snd (main sv environ fuel h) = missing_lines
      /\ process (fst (main sv environ fuel h)) = Some (ExitCode 1))
  /\ ((forall k, In k required_keys -> not_ (environ k) = false) ->
      exists r,
        hd_error (snd (main sv environ fuel h))
        = Some (Called (GenaiConfigure (environ "GEMINI_API_KEY")) r)).
Proof.
  pose proof (main_cases environ fuel h) as Hm.
  pose proof (missing_iff environ) as Hiff.
  destruct (not_ (environ "GEMINI_API_KEY")
            || not_ (environ "ELEVENLABS_API_KEY")
            || not_ (environ "ELEVENLABS_VOICE_ID")).
  - rewrite Hm. cbn [fst snd process missing_lines hd_error].
    split; [split; [intros _; now apply Hiff | reflexivity]|].
    split; [intros _; split; reflexivity|].
    intros Hall. destruct (proj1 Hiff eq_refl) as (k & Hin & Hk).
    rewrite (Hall k Hin) in Hk. discriminate.
  - assert (Hnone : ~ exists k, In k required_keys /\ not_ (environ k) = true).
    { intros Hex. apply Hiff in Hex. discriminate. }
    assert (Hhd : exists r,
               hd_error (snd (main sv environ fuel h))
               = Some (Called (GenaiConfigure (environ "GEMINI_API_KEY")) r)).
    { destruct Hm as (h0 & Hm).
      pose proof (VoiceAI_init_spec (environ "GEMINI_API_KEY")
                    (environ "ELEVENLABS_API_KEY")
                    (environ "ELEVENLABS_VOICE_ID") h0) as Hi.
      cbv zeta in Hi. destruct Hi as (_ & (r0 & rest & Hoi) & _).
      exists r0.
      destruct (VoiceAI_init sv _ _ _ h0) as [[self|e0] oi];
        cbn [fst snd] in *.
      - destruct Hm as (hh & Hm).
        destruct (while_True fuel (runTurn sv self) hh) as [[r|e0] ow];
          rewrite Hm.
        + subst oi. reflexivity.
        + apply (main_except_hd e0 (oi ++ banner ++ ow)
                   (rest ++ banner ++ ow)).
          now subst oi.
      - rewrite Hm. now apply (main_except_hd e0 oi rest). }
    split; [split; [|intros Hex; contradiction]|].
    + destruct Hhd as (r & ->). discriminate.
    + split; [intros Hex; contradiction | intros _; exact Hhd].
Qed.

End MoreProcess.

(** ** The microphone and the chat session over the whole process *)

Section WholeProcess.

Variable sv : services.

Lemma calls_only_on_call {X} (sel : forall R, call R -> bool)
  (f : forall R, call R -> result R -> list X) (t : trace) :
  (forall R (c : call R) r, sel R c = true -> f R c r = []) ->
  calls_only sel t = true -> on_call f t = [].
Proof.
  intros Hsel. induction t as [|ev t IH]; [reflexivity|].
  cbn [calls_only forallb].
  intros H. apply andb_true_iff in H as [Hev Ht].
  change (ev :: t) with ([ev] ++ t).
  rewrite on_call_app, (IH Ht), app_nil_r.
  destruct ev as [l | R c r]; [reflexivity|].
  cbn. rewrite (Hsel R c r Hev). reflexivity.
Qed.

(** After the capture a turn touches neither the microphone nor the
    recognizer. *)
Lemma reply_calls_no_capture (t : trace) :
  calls_only (@is_reply_call) t = true ->
  mic_opened t = [] /\ mic_closed t = [] /\ heard t = [].
Proof.
  intros Ht. repeat split; revert Ht; apply calls_only_on_call;
    intros R c r; now destruct c.
Qed.

(** [listen] closes the microphone it opened, and hears what it returns. *)
Lemma listen_capture (self : VoiceAI) (h : trace) :
  mic_opened (snd (listen sv self h)) = mic_closed (snd (listen sv self h))
  /\ heard (snd (listen sv self h))
     = match fst (listen sv self h) with
       | Ok (Some text) => [text]
       | _ => []
       end.
Proof.
  open_py. repeat case_call sv; split; reflexivity.
Qed.

(** [__init__] closes the microphone it opened, and recognizes nothing. *)
Lemma VoiceAI_init_capture (k1 k2 v : pyval) (h : trace) :
  mic_opened (snd (VoiceAI_init sv k1 k2 v h))
  = mic_closed (snd (VoiceAI_init sv k1 k2 v h))
  /\ heard (snd (VoiceAI_init sv k1 k2 v h)) = [].
Proof.
  open_py. repeat case_call sv; split; reflexivity.
Qed.

(** One turn: the microphone is closed as often as it was opened, and the
    prompt sent is the utterance heard, if it is to be forwarded. *)
Lemma runTurn_capture (self : VoiceAI) (h : trace) :
  mic_opened (snd (runTurn sv self h)) = mic_closed (snd (runTurn sv self h))
  /\ prompts (snd (runTurn sv self h))
     = filter forwardable (heard (snd (runTurn sv self h))).
Proof.
  destruct (listen_capture self h) as (Hmic & Hheard).
  assert (Hchat : forall t, calls_only (@is_chat) t = true ->
                            calls_only (@is_reply_call) t = true).
  { intros t. apply calls_only_weaken.
    intros R c Hc. unfold is_reply_call. now rewrite Hc. }
  unfold mic_opened, mic_closed, heard in *.
  turn_cases sv self h;
    [| rewrite Hheard; cbn [filter]; split; assumption
     | rewrite Hheard; cbn [filter]; split; assumption ].
  unfold forwardable.
  destruct (PyStr.is_empty text) eqn:Hemp;
    [cbn [fst snd]; rewrite Hheard; cbn [filter]; rewrite Hemp;
     split; assumption|].
  destruct (PyStr.mem _ exit_phrases) eqn:Hmem.
  - pose proof (speak_more sv self farewell ((h ++ o) ++ [Print farewell]))
      as Hm.
    cbv zeta in Hm. destruct Hm as (Hm1 & _).
    destruct (reply_calls_no_capture _ Hm1) as (M1 & M2 & M3).
    unfold mic_opened, mic_closed, heard in M1, M2, M3.
    speak_cases sv self; cbn [fst snd];
      change (Print farewell :: ?x) with ([Print farewell] ++ x);
      rewrite ?on_call_app, ?prompts_app, Hmic, Hheard, M1, M2, M3, Hl1, Hs1;
      cbn [on_call flat_map app filter prompts]; rewrite ?app_nil_r;
      cbn [filter]; rewrite Hemp, Hmem; split; reflexivity.
  - chat_cases_more sv self;
      destruct (reply_calls_no_capture _ (Hchat _ Hk1)) as (K1 & K2 & K3);
      unfold mic_opened, mic_closed, heard in K1, K2, K3.
    + pose proof (speak_more sv self reply ((h ++ o) ++ og)) as Hm.
      cbv zeta in Hm. destruct Hm as (Hm1 & _).
      destruct (reply_calls_no_capture _ Hm1) as (M1 & M2 & M3).
      unfold mic_opened, mic_closed, heard in M1, M2, M3.
      speak_cases sv self; cbn [fst snd];
        rewrite ?on_call_app, ?prompts_app, Hmic, Hheard, K1, K2, K3,
          M1, M2, M3, Hl1, Hg1, Hs1;
        cbn [app filter]; rewrite ?app_nil_r;
        cbn [filter]; rewrite Hemp, Hmem; split; reflexivity.
    + cbn [fst snd].
      rewrite ?on_call_app, ?prompts_app, Hmic, Hheard, K1, K2, K3, Hl1, Hg1;
        cbn [app filter]; rewrite ?app_nil_r;
        cbn [filter]; rewrite Hemp, Hmem; split; reflexivity.
Qed.

Lemma while_True_capture (self : VoiceAI) (fuel : nat) (h : trace) :
  mic_opened (snd (while_True fuel (runTurn sv self) h))
  = mic_closed (snd (while_True fuel (runTurn sv self) h))
  /\ prompts (snd (while_True fuel (runTurn sv self) h))
     = filter forwardable (heard (snd (while_True fuel (runTurn sv self) h))).
Proof.
  apply (while_True_trace sv self
           (fun t => mic_opened t = mic_closed t
                     /\ prompts t = filter forwardable (heard t))).
  - split; reflexivity.
  - intros a b (Ha1 & Ha2) (Hb1 & Hb2).
    unfold mic_opened, mic_closed, heard in *.
    rewrite !on_call_app, prompts_app, filter_app, Ha1, Ha2, Hb1, Hb2.
    split; reflexivity.
  - intros h'. apply runTurn_capture.
Qed.

(** X15.  Over a whole run of [main] the microphone is closed as often as
    it was opened: every [__enter__] that returned, in the calibration and
    in every [listen], is matched by a call of [__exit__], also when the
    capture raised. *)
Theorem microphone_always_closed (environ : string -> pyval) (fuel : nat)
  (h : trace) :
  length (mic_opened (snd (main sv environ fuel h)))
  = length (mic_closed (snd (main sv environ fuel h))).
Proof.
  f_equal.
  pose proof (main_cases sv environ fuel h) as Hm.
  destruct (not_ (environ "GEMINI_API_KEY")
            || not_ (environ "ELEVENLABS_API_KEY")
            || not_ (environ "ELEVENLABS_VOICE_ID")).
  - rewrite Hm. reflexivity.
  - destruct Hm as (h0 & Hm).
    pose proof (VoiceAI_init_capture (environ "GEMINI_API_KEY")
                  (environ "ELEVENLABS_API_KEY")
                  (environ "ELEVENLABS_VOICE_ID") h0) as (Hi & _).
    unfold mic_opened, mic_closed in *.
    destruct (VoiceAI_init sv _ _ _ h0) as [[self|e0] oi];
      cbn [fst snd] in *.
    + destruct Hm as (hh & Hm).
      pose proof (while_True_capture self fuel hh) as (Hw & _).
      unfold mic_opened, mic_closed in Hw.
      destruct (while_True fuel (runTurn sv self) hh) as [[r|e0] ow];
        cbn [fst snd] in *; rewrite Hm;
        rewrite ?main_except_on_call; cbn [snd];
        rewrite !on_call_app, Hi, Hw; reflexivity.
    + rewrite Hm, !main_except_on_call. exact Hi.
Qed.

(** X16.  Over a whole run of [main] the prompts sent to the chat session
    are exactly the transcripts the recognizer returned that are not empty
    and, lower-cased and stripped, no exit phrase: each as it was heard, in
    the order heard, none twice and none left out. *)
Theorem prompts_are_heard_utterances (environ : string -> pyval)
  (fuel : nat) (h : trace) :
  prompts (snd (main sv environ fuel h))
  = filter forwardable (heard (snd (main sv environ fuel h))).
Proof.
  pose proof (main_cases sv environ fuel h) as Hm.
  destruct (not_ (environ "GEMINI_API_KEY")
            || not_ (environ "ELEVENLABS_API_KEY")
            || not_ (environ "ELEVENLABS_VOICE_ID")).
  - rewrite Hm. reflexivity.
  - destruct Hm as (h0 & Hm).
    pose proof (VoiceAI_init_capture (environ "GEMINI_API_KEY")
                  (environ "ELEVENLABS_API_KEY")
                  (environ "ELEVENLABS_VOICE_ID") h0) as (_ & Hi).
    pose proof (VoiceAI_init_spec sv (environ "GEMINI_API_KEY")
                  (environ "ELEVENLABS_API_KEY")
                  (environ "ELEVENLABS_VOICE_ID") h0) as Hs.
    cbv zeta in Hs. destruct Hs as ((Hp & _) & _).
    unfold heard, prompts in *.
    destruct (VoiceAI_init sv _ _ _ h0) as [[self|e0] oi];
      cbn [fst snd] in *.
    + destruct Hm as (hh & Hm).
      pose proof (while_True_capture self fuel hh) as (_ & Hw).
      unfold heard, prompts in Hw.
      destruct (while_True fuel (runTurn sv self) hh) as [[r|e0] ow];
        cbn [fst snd] in *; rewrite Hm;
        rewrite ?main_except_on_call; cbn [snd];
        rewrite !on_call_app, Hi, Hp, Hw; reflexivity.
    + rewrite Hm, !main_except_on_call, Hi, Hp. reflexivity.
Qed.

End WholeProcess.

(** ** The further theorems at concrete worlds *)

Lemma listen_failure_message_witness :
  fst (listen_try deaf_world agent []) = Raise (UnknownValueError "")
  /\ printed (snd (listen deaf_world agent []))
     = printed (snd (listen_try deaf_world agent []))
       ++ ["Sorry, I could not understand that."]
  /\ fst (listen deaf_world agent []) = Ok None.
Proof.
  split; [reflexivity|].
  exact (listen_failure_message deaf_world agent []
           (UnknownValueError "") eq_refl).
Defined.

Lemma listen_returns_transcript_witness :
  fst (listen (working (Ok "Hello there") (Ok "Hi!")) agent [])
  = Ok (Some "Hello there")
  /\ exists pre a,
      snd (listen (working (Ok "Hello there") (Ok "Hi!")) agent [])
      = pre ++ [Called (RecognizeGoogle a) (Ok "Hello there");
                Print ("You said: " ++ "Hello there")]
      /\ capture_only pre = true.
Proof.
  split; [reflexivity|].
  exact (listen_returns_transcript
           (working (Ok "Hello there") (Ok "Hi!")) agent [] "Hello there"
           eq_refl).
Defined.

Lemma reply_is_trimmed_witness :
  fst (get_ai_response (working (Ok "Hello there") (Ok "  Hi!  ")) agent
         "Hello there" [])
  = Ok "Hi!"
  /\ PyStr.strip "Hi!" = "Hi!".
Proof.
  split; [reflexivity|].
  exact (reply_is_trimmed (working (Ok "Hello there") (Ok "  Hi!  ")) agent
           "Hello there" [] "Hi!" eq_refl).
Defined.

Lemma exit_only_on_exit_phrase_witness :
  fst (runTurn (working (Ok "  GoodBye ") (Ok "")) agent []) = Ok Exit
  /\ prompts (snd (runTurn (working (Ok "  GoodBye ") (Ok "")) agent []))
     = []
  /\ synthesis_requests
       (snd (runTurn (working (Ok "  GoodBye ") (Ok "")) agent []))
     = [farewell].
Proof.
  split; [reflexivity|].
  pose proof (exit_only_on_exit_phrase
                (working (Ok "  GoodBye ") (Ok "")) agent [] eq_refl)
    as (_ & H1 & H2 & _).
  split; assumption.
Defined.

Lemma run_returns_after_goodbye_witness :
  fst (run (working (Ok "quit") (Ok "")) 3 agent []) = Ok (Some tt)
  /\ last_printed (snd (run (working (Ok "quit") (Ok "")) 3 agent []))
     = "Session ended.".
Proof.
  split; [reflexivity|].
  exact (proj1 (run_returns_after_goodbye
                  (working (Ok "quit") (Ok "")) 3 agent [] eq_refl)).
Defined.

Lemma run_silent_room_witness :
  (forall h', exists e,
      fst (listen_try deaf_world agent h') = Raise e
      /\ is_Exception e = true)
  /\ fst (run deaf_world 3 agent []) = Ok None
  /\ prompts (snd (run deaf_world 3 agent [])) = [].
Proof.
  assert (Hdeaf : forall h', exists e,
             fst (listen_try deaf_world agent h') = Raise e
             /\ is_Exception e = true).
  { intros h'. exists (UnknownValueError ""). split; reflexivity. }
  split; [exact Hdeaf|].
  pose proof (run_silent_room deaf_world 3 agent [] Hdeaf) as (H1 & H2 & _).
  split; assumption.
Defined.

Lemma config_failure_exit_1_witness :
  config_failed (snd (main config_down full_environ 3 [])) = true
  /\ process (fst (main config_down full_environ 3 [])) = Some (ExitCode 1).
Proof.
  split; [reflexivity|].
  exact (proj1 (config_failure_exit_1 config_down full_environ 3 []
                  eq_refl)).
Defined.

Lemma startup_failure_reported_witness :
  startup_failed (snd (main no_microphone full_environ 3 [])) = true
  /\ fst (main no_microphone full_environ 3 []) = Ok (Some tt)
  /\ process (fst (main no_microphone full_environ 3 [])) = Some (ExitCode 0).
Proof.
  split; [reflexivity|].
  pose proof (startup_failure_reported no_microphone full_environ 3 []
                eq_refl) as (H1 & H2 & _).
  split; assumption.
Defined.

Lemma interrupt_ends_session_witness :
  reply_interrupted (snd (main interrupted_chat full_environ 3 [])) = true
  /\ fst (main interrupted_chat full_environ 3 []) = Ok (Some tt)
  /\ process (fst (main interrupted_chat full_environ 3 []))
     = Some (ExitCode 0).
Proof.
  split; [reflexivity|].
  pose proof (interrupt_ends_session interrupted_chat full_environ 3 []
                eq_refl) as (H1 & H2 & _).
  split; assumption.
Defined.
